(** * SatWatch route analyser: the hazard correlation core of [app.py]

    A shallow embedding of the functions of [src/app.py] that decide which
    hazards are reported for a route, and the properties of the
    specification proved about them.

    Conventions of the embedding:
    - a Python [float] is a binary64 primitive float ([PrimFloat.float]);
      the arithmetic operators and the comparison [<] are the primitive
      ones;
    - a Python [str] is a [string]; [str.lower] belongs to the interpreter
      and is a parameter of the functions that call it;
    - the functions of the [math] module belong to the interpreter as well
      and are gathered in a record the distance function is parameterised
      by; each of them may raise. Two such records are given to evaluate
      with: [approx.libm], computed by power series, and [cpython.libm],
      which holds the C library's own values at one pair of antipodes;
    - a Python exception is a value of [exn]; code that may raise returns a
      [result]; a [try]/[except Exception] block is [try_except];
    - a list that a function appends to while it may raise is threaded as
      explicit state, so that what was appended before the exception is
      still there when the handler runs;
    - the outside world (HTTP responses, the API key of the environment,
      today's date) is an explicit argument. *)

From Stdlib Require Import ZArith List String Ascii Bool Lia Floats.
Import ListNotations.

Local Open Scope string_scope.
Local Open Scope list_scope.

(** ** Python strings *)

Module PyStr.

(** [s.startswith(p)], the test at one position of [p in s]. *)
Fixpoint startswith (p s : string) : bool :=
  match p, s with
  | EmptyString, _ => true
  | String _ _, EmptyString => false
  | String a p', String b s' => Ascii.eqb a b && startswith p' s'
  end.

(** [needle in hay] on strings: some position of [hay] starts with
    [needle]; the empty string is in every string. *)
Fixpoint contains (needle hay : string) : bool :=
  startswith needle hay ||
  match hay with
  | EmptyString => false
  | String _ rest => contains needle rest
  end.

(** What [needle in hay] means: [hay] splits around an occurrence. *)
Definition occurs_in (needle hay : string) : Prop :=
  exists before after, hay = (before ++ needle ++ after)%string.

(** Python's truth value of a string. *)
Definition truthy (s : string) : bool :=
  match s with EmptyString => false | String _ _ => true end.

(** [str.lower] restricted to ASCII letters: the interpreter's function on
    strings made of ASCII characters only. Used to evaluate examples. *)
Definition ascii_lower_char (c : ascii) : ascii :=
  let n := nat_of_ascii c in
  if (65 <=? n)%nat && (n <=? 90)%nat then ascii_of_nat (n + 32) else c.

Fixpoint ascii_lower (s : string) : string :=
  match s with
  | EmptyString => EmptyString
  | String c s' => String (ascii_lower_char c) (ascii_lower s')
  end.

End PyStr.

(** ** Exceptions, results and stateful computations *)

(** The subclasses of [Exception] the modelled code can meet. *)
Inductive exn : Type :=
| RequestException   (* requests.get: connection error, timeout *)
| HTTPError          (* Response.raise_for_status *)
| ParseError         (* ET.fromstring, Response.json *)
| AttributeError
| KeyError
| IndexError
| ValueError
| OverflowError.

Inductive result (A : Type) : Type :=
| Ok (a : A)
| Raise (e : exn).
Arguments Ok {A} a.
Arguments Raise {A} e.

Definition is_ok {A} (r : result A) : bool :=
  match r with Ok _ => true | Raise _ => false end.

(** A computation over a mutable store [S] that may raise: the store
    survives the exception. *)
Definition M (S A : Type) : Type := S -> result A * S.

Definition ret {S A} (a : A) : M S A := fun s => (Ok a, s).

Definition bind {S A B} (m : M S A) (k : A -> M S B) : M S B :=
  fun s => match m s with
           | (Ok a, s') => k a s'
           | (Raise e, s') => (Raise e, s')
           end.

Definition raise {S A} (e : exn) : M S A := fun s => (Raise e, s).

(** Lifting of a pure fallible value. *)
Definition lift {S A} (r : result A) : M S A := fun s => (r, s).

Definition get {S} : M S S := fun s => (Ok s, s).

Definition modify {S} (f : S -> S) : M S unit := fun s => (Ok tt, f s).

(** [try: body / except Exception as e: handler e]. *)
Definition try_except {S A} (body : M S A) (handler : exn -> M S A) : M S A :=
  fun s => match body s with
           | (Ok a, s') => (Ok a, s')
           | (Raise e, s') => handler e s'
           end.

(** [for x in xs: body x], with no [break]. *)
Fixpoint for_each {S A} (xs : list A) (body : A -> M S unit) : M S unit :=
  match xs with
  | [] => ret tt
  | x :: rest => bind (body x) (fun _ => for_each rest body)
  end.

Declare Scope py_scope.
Delimit Scope py_scope with py.
Notation "x <- m ;; k" := (bind m (fun x => k))
  (at level 61, m at next level, right associativity) : py_scope.
Notation "m ;;; k" := (bind m (fun _ => k))
  (at level 61, right associativity) : py_scope.

(** The same for code with no store: a plain error monad. *)
Definition rbind {A B} (r : result A) (k : A -> result B) : result B :=
  match r with Ok a => k a | Raise e => Raise e end.

Notation "x <~ r ;; k" := (rbind r (fun x => k))
  (at level 61, r at next level, right associativity) : py_scope.

(** A field or a function of what was returned, when nothing was raised. *)
Definition rmap {A B} (f : A -> B) (r : result A) : result B :=
  match r with Ok a => Ok (f a) | Raise e => Raise e end.

(** ** Data model *)

Set Warnings "-inexact-float".
Local Open Scope float_scope.

(** A geographic point, [[lat, lon]] in the source. *)
Definition point : Type := float * float.

(** A hazard record: the dict with keys ['coords'], ['details'] and
    ['location_name'] every source builds. *)
Record hazard : Type := mkHazard {
  coords : point;
  details : string;
  location_name : string
}.

(** [MOCK_LOCAL_ADVISORIES]: a dict literal, so its items come in the order
    they are written. *)
Definition MOCK_LOCAL_ADVISORIES : list (string * hazard) := [
  ("Kufri",
   mkHazard (31.1005, 77.2658)
     "Heavy Snowfall Warning: Kufri and surrounding areas experience heavy snow, leading to frequent road blockages. Check road status before travel. Only 4x4 vehicles with snow chains are recommended."
     "Kufri, Himachal Pradesh");
  ("Shimla",
   mkHazard (31.1048, 77.1734)
     "Road Advisory: Heavy snowfall in winter. Main roads can be treacherous. During monsoon, risk of landslides is high. Drive with caution."
     "Shimla, Himachal Pradesh");
  ("Himachal Pradesh",
   mkHazard (31.7104, 76.9325)
     "General Advisory for Himachal: The state is prone to landslides and flash floods during monsoon (July-Sept) and heavy snowfall in winter (Dec-Feb). Always check local weather and road conditions."
     "Himachal Pradesh");
  ("Jammu",
   mkHazard (32.7266, 74.8570)
     "Landslide & Security Advisory: The Jammu-Srinagar highway (NH44) is prone to frequent closures due to landslides, especially near Ramban. Follow all security advisories and travel only during daylight hours."
     "Jammu Region, J&K");
  ("Ladakh",
   mkHazard (34.1526, 77.5771)
     "High-Altitude & Weather Advisory: Risk of acute mountain sickness. Roads like Zoji La & Rohtang Pass are closed in winter. Expect extreme cold and limited facilities. Acclimatize properly before travel."
     "Ladakh Union Territory");
  ("Kedarnath",
   mkHazard (30.7352, 79.0669)
     "Mountain Route Advisory: Seasonal road closures and heavy landslides reported. Travel is **NOT ADVISED** at this time."
     "Rudraprayag district, Uttarakhand");
  ("Joshimath",
   mkHazard (30.5656, 79.5645)
     "Severe Land Subsidence Warning: This area is experiencing significant land sinking. Many structures are unsafe. Non-essential travel is strongly discouraged."
     "Joshimath, Chamoli, Uttarakhand");
  ("Assam",
   mkHazard (26.1445, 91.7362)
     "Monsoon Flood Alert: The Brahmaputra river regularly causes widespread flooding during the monsoon season (June-September). Check current conditions before travel."
     "Assam River Plains");
  ("Bihar",
   mkHazard (25.5941, 85.1376)
     "Severe Flood Risk: The Kosi and Ganges rivers can cause extensive and rapid flooding during monsoon season. Travel to northern districts may be disrupted."
     "Northern Bihar");
  ("Kerala",
   mkHazard (10.8505, 76.2711)
     "Flood Warning: Monsoon season has caused local flooding. Some low-lying areas are impassable. Check local reports."
     "Kerala, India");
  ("Mumbai",
   mkHazard (19.0760, 72.8777)
     "Cyclone Advisory: Heavy winds and storm surge expected. Travel to coastal areas is not advised."
     "Mumbai Coastline");
  ("Odisha",
   mkHazard (19.8135, 85.8312)
     "Cyclone Alert Zone: This coastal region is highly susceptible to cyclones, especially from May-June and October-November. Monitor weather reports for cyclone warnings."
     "Puri, Odisha Coast");
  ("Sundarbans",
   mkHazard (21.9497, 88.8533)
     "Storm Surge & Cyclone Warning: This low-lying delta region is extremely vulnerable to storm surges from cyclones in the Bay of Bengal. Follow all official advisories."
     "Sundarbans Delta, West Bengal")
].

(** ** The [math] module and [float.__pow__]

    None of these is code of the repository. Each may raise ([math.sin] of
    an infinity and [math.sqrt] of a negative number raise [ValueError]). *)

Module math.
Record impl : Type := mkImpl {
  radians : float -> result float;
  sin : float -> result float;
  cos : float -> result float;
  sqrt : float -> result float;
  atan2 : float -> float -> result float;
  pow : float -> Z -> result float      (* [x ** n] for a float [x], an int [n] *)
}.
End math.

(** ** [haversine] *)

Section Distance.
Variable libm : math.impl.
Local Open Scope py_scope.

(** Line 97, the value of [a]. The operands are evaluated from left to
    right, so the first call that raises decides the exception. *)
Definition haversine_a (lat1 lon1 lat2 lon2 : float) : result float :=
  dlat <~ math.radians libm (lat2 - lat1) ;;
  dlon <~ math.radians libm (lon2 - lon1) ;;
  s1 <~ math.sin libm (dlat / 2) ;;
  q1 <~ math.pow libm s1 2 ;;
  r1 <~ math.radians libm lat1 ;;
  c1 <~ math.cos libm r1 ;;
  r2 <~ math.radians libm lat2 ;;
  c2 <~ math.cos libm r2 ;;
  s2 <~ math.sin libm (dlon / 2) ;;
  q2 <~ math.pow libm s2 2 ;;
  Ok (q1 + c1 * c2 * q2).

(** The function: lines 94 to 99. *)
Definition haversine (lat1 lon1 lat2 lon2 : float) : result float :=
  let R := 6371 in
  a <~ haversine_a lat1 lon1 lat2 lon2 ;;
  x <~ math.sqrt libm a ;;
  y <~ math.sqrt libm (1 - a) ;;
  t <~ math.atan2 libm x y ;;
  let c := 2 * t in
  Ok (R * c).

End Distance.

(** ** [fetch_local_advisories] *)

Section LocalAdvisories.
Variable lower : string -> string.

(** The test of the loop: [loc_name.lower() in end_loc_name.lower()]. *)
Definition advisory_matches (loc_name end_loc_name : string) : bool :=
  PyStr.contains (lower loc_name) (lower end_loc_name).

(** The [for] loop over the items of a registry, from the current value of
    [local_hazards]: the first match is appended and the loop is left. *)
Fixpoint scan_advisories (items : list (string * hazard)) (end_loc_name : string)
    (local_hazards : list hazard) : list hazard :=
  match items with
  | [] => local_hazards
  | (loc_name, advisory) :: rest =>
      if advisory_matches loc_name end_loc_name
      then local_hazards ++ [advisory]                      (* append; break *)
      else scan_advisories rest end_loc_name local_hazards
  end.

Definition fetch_local_advisories (end_loc_name : string) : list hazard :=
  scan_advisories MOCK_LOCAL_ADVISORIES end_loc_name [].

End LocalAdvisories.

(** ** The HTTP collaborators *)

(** What the code reads of a [requests] response: its status, and what the
    decoder applied to its content ([ET.fromstring] followed by [findall],
    or [Response.json]) gives. *)
Record response (A : Type) : Type := mkResponse {
  status_code : Z;
  decoded : result A
}.
Arguments mkResponse {A} status_code decoded.
Arguments status_code {A} r.
Arguments decoded {A} r.

(** [Response.raise_for_status()]: client and server error statuses raise. *)
Definition raise_for_status {A} (r : response A) : result unit :=
  if ((400 <=? status_code r) && (status_code r <? 600))%Z
  then Raise HTTPError else Ok tt.

(** [d[k]] on a key that may be absent. *)
Definition dict_get {A} (v : option A) : result A :=
  match v with Some a => Ok a | None => Raise KeyError end.

(** [l[i]] for a Python list and an int, negative indices counting from
    the end. *)
Definition py_index {A} (l : list A) (i : Z) : result A :=
  let n := Z.of_nat (List.length l) in
  let j := if (i <? 0)%Z then (i + n)%Z else i in
  if ((0 <=? j) && (j <? n))%Z
  then match nth_error l (Z.to_nat j) with
       | Some a => Ok a
       | None => Raise IndexError
       end
  else Raise IndexError.

(** ** [fetch_and_check_gdacs_alerts] *)

(** An [<item>] of the feed as the loop reads it: the text of its [<title>]
    child ([None]: there is no such child, and [.text] raises
    [AttributeError]), and for its [<georss:point>] child, when there is
    one, what [map(float, text.split())] unpacked into two names gives. *)
Record item : Type := mkItem {
  title : option string;
  georss_point : option (result point)
}.

Section Gdacs.
Variable libm : math.impl.
Local Open Scope py_scope.

(** The proximity test of line 126. *)
Definition within_50 (d : float) : bool := d <? 50.

(** The inner [for] loop over the route, for one feed point: at the first
    route point that passes the test the record is appended and the loop is
    left. The store is [detected_hazards]. *)
Fixpoint scan_route (route_points : list point) (lat lon : float)
    (item_title : string) : M (list hazard) unit :=
  match route_points with
  | [] => ret tt
  | route_point :: rest =>
      d <- lift (haversine libm (fst route_point) (snd route_point) lat lon) ;;
      if within_50 d
      then modify (fun detected_hazards =>
                     detected_hazards ++
                     [mkHazard (lat, lon) item_title "Near your route"])
      else scan_route rest lat lon item_title
  end.

(** The body of the outer [for] loop. *)
Definition check_item (route_points : list point) (it : item)
    : M (list hazard) unit :=
  item_title <- lift (match title it with
                      | Some t => Ok t
                      | None => Raise AttributeError
                      end) ;;
  match georss_point it with
  | None => ret tt
  | Some parsed =>
      latlon <- lift parsed ;;
      scan_route route_points (fst latlon) (snd latlon) item_title
  end.

(** The [try] block. [http_get] is the outcome of [requests.get]. *)
Definition gdacs_try (http_get : result (response (list item)))
    (route_points : list point) : M (list hazard) unit :=
  resp <- lift http_get ;;
  lift (raise_for_status resp) ;;;
  items <- lift (decoded resp) ;;
  for_each items (check_item route_points).

(** The whole function: [detected_hazards] starts empty, the handler only
    prints, and the list is returned whatever happened. *)
Definition fetch_and_check_gdacs_alerts
    (http_get : result (response (list item)))
    (route_points : list point) : result (list hazard) :=
  fst ((try_except (gdacs_try http_get route_points) (fun _ => ret tt) ;;;
        get) []).

End Gdacs.

(** ** [fetch_weather_alerts] *)

(** An element of the ['weather'] array and the decoded JSON document, as
    far as the code reads them; [None] is an absent key. A ['weather'] key
    that is absent or holds an empty array is the empty list. *)
Record condition : Type := mkCondition {
  id : option Z;
  description : option string
}.

Record weather_data : Type := mkWeatherData {
  weather : list condition;
  name : option string
}.

(** The store of the weather sampler: the list [weather_hazards], and the
    points [requests.get] was called for, in call order. *)
Definition wstore : Type := (list hazard * list point)%type.

Section Weather.
(** The environment variable; [None] when it is not set. *)
Variable OPENWEATHERMAP_API_KEY : option string.
(** The provider: the outcome of the [k]-th request, made for a point. *)
Variable owm : nat -> point -> result (response weather_data).
Local Open Scope py_scope.

Definition key_configured : bool :=
  match OPENWEATHERMAP_API_KEY with
  | Some k => PyStr.truthy k
  | None => false
  end.

Definition requests_get (p : point) : M wstore (response weather_data) :=
  fun '(hs, asked) => (owm (List.length asked) p, (hs, asked ++ [p])).

(** The condition codes of line 149. *)
Definition hazardous_id (i : Z) : bool := ((200 <=? i) && (i <? 800))%Z.

(** The [if] statement of lines 149-154. *)
Definition alert_if_hazardous (p : point) (data : weather_data)
    : M wstore unit :=
  match weather data with
  | [] => ret tt
  | w0 :: _ =>
      i <- lift (dict_get (id w0)) ;;
      if hazardous_id i
      then
        d <- lift (dict_get (description w0)) ;;
        modify (fun '(weather_hazards, asked) =>
          (weather_hazards ++
           [mkHazard p ("Weather Alert: " ++ d)%string
              (match name data with
               | Some n => n
               | None => "Along your route"
               end)],
           asked))
      else ret tt
  end.

(** The body of the loop over [points_to_check]. *)
Definition check_point (p : point) : M wstore unit :=
  try_except
    (resp <- requests_get p ;;
     lift (raise_for_status resp) ;;;
     data <- lift (decoded resp) ;;
     alert_if_hazardous p data)
    (fun _ => ret tt).

Definition weather_body (route_points : list point) : M wstore (list hazard) :=
  if negb key_configured then ret []
  else
    p_first <- lift (py_index route_points 0) ;;
    p_mid <- lift (py_index route_points (Z.of_nat (List.length route_points) / 2)) ;;
    p_last <- lift (py_index route_points (-1)) ;;
    let points_to_check := [p_first; p_mid; p_last] in
    for_each points_to_check check_point ;;;
    s <- get ;;
    ret (fst s).

(** The function, run from an empty [weather_hazards] and no request made:
    what it returns or raises, and the requests it made. *)
Definition fetch_weather_alerts (route_points : list point)
    : result (list hazard) * list point :=
  let '(r, (_, asked)) := weather_body route_points ([], []) in (r, asked).

End Weather.

(** ** [get_satellite_url] *)

Section Imagery.
Variable lower : string -> string.
(** [datetime.date.today().isoformat()]. *)
Variable date_today : string.

Definition viirs_url : string :=
  ("https://gibs.earthdata.nasa.gov/wmts/epsg4326/best/VIIRS_SNPP_Thermal_Anomalies_375m_All/default/"
   ++ date_today ++ "/250m/{z}/{y}/{x}.png")%string.

Definition modis_url : string :=
  ("https://gibs.earthdata.nasa.gov/wmts/epsg4326/best/MODIS_Terra_CorrectedReflectance_TrueColor/default/"
   ++ date_today ++ "/250m/{z}/{y}/{x}.jpg")%string.

(** The condition of line 162; [None] is the default argument, and [and]
    stops at a string that is empty. *)
Definition mentions_fire (hazard_type : option string) : bool :=
  match hazard_type with
  | None => false
  | Some h =>
      PyStr.truthy h &&
      (PyStr.contains "fire" (lower h) || PyStr.contains "wildfire" (lower h))
  end.

Definition get_satellite_url (hazard_type : option string) : string :=
  if mentions_fire hazard_type then viirs_url else modis_url.

End Imagery.

(** ** [analyze_route], once the route is known *)

(** [local_hazards + gdacs_hazards + weather_hazards]: [+] associates to
    the left. *)
Definition all_hazards (local_hazards gdacs_hazards weather_hazards : list hazard)
    : list hazard :=
  (local_hazards ++ gdacs_hazards) ++ weather_hazards.

(** [all_hazards[0]['details'] if all_hazards else None]. *)
Definition primary_details (hs : list hazard) : option string :=
  match hs with
  | [] => None
  | h :: _ => Some (details h)
  end.

(** The fields of the JSON answer that depend on the hazards. *)
Record analysis : Type := mkAnalysis {
  endName : string;
  route : list point;
  hazards : list hazard;
  satelliteUrl : string
}.

Section Endpoint.
Variable lower : string -> string.
Variable libm : math.impl.
Variable date_today : string.
Variable OPENWEATHERMAP_API_KEY : option string.
Variable owm : nat -> point -> result (response weather_data).
Variable gdacs_get : result (response (list item)).
Local Open Scope py_scope.

(** Lines 206-219: the endpoint after geocoding and routing have given
    [end_name] and [route_points]. An exception raised here is not caught
    by the endpoint. *)
Definition analyze_route (end_name : string) (route_points : list point)
    : result analysis :=
  let local_hazards := fetch_local_advisories lower end_name in
  gdacs_hazards <~ fetch_and_check_gdacs_alerts libm gdacs_get route_points ;;
  weather_hazards <~
    fst (fetch_weather_alerts OPENWEATHERMAP_API_KEY owm route_points) ;;
  let hs := all_hazards local_hazards gdacs_hazards weather_hazards in
  let satellite_url := get_satellite_url lower date_today (primary_details hs) in
  Ok (mkAnalysis end_name route_points hs satellite_url).

End Endpoint.

(** ** A [math] module to evaluate with

    An implementation of the interface above on primitive floats:
    [radians] and [sqrt] as the interpreter computes them, sine, cosine and
    arc tangent by their power series, which agree with the C library up to
    rounding on the arguments [haversine] meets (angles of at most a half
    turn). It serves to run the model on concrete routes; the theorems
    below hold for every implementation. *)

Module approx.

Definition pi : float := 3.141592653589793.

(** [math.radians(x)] is [x * (pi / 180)]. *)
Definition radians (x : float) : result float := Ok (x * (pi / 180)).

(** The interpreter's wrapper of a C function of one argument: a NaN that
    does not come from a NaN, and an infinity that comes from a finite
    number, are reported as [ValueError]. *)
Definition math_1 (f : float -> float) (x : float) : result float :=
  let r := f x in
  if is_nan r && negb (is_nan x) then Raise ValueError
  else if is_infinity r && is_finite x then Raise ValueError
  else Ok r.

Definition sqrt : float -> result float := math_1 PrimFloat.sqrt.

(** [acc + t1 + t2 + ...] where [t_(i+1) = - t_i * x2 / ((k+1) * (k+2))],
    [k] growing by two: the series of sine (from [k = 1], [t_0 = x]) and
    of cosine (from [k = 0], [t_0 = 1]) with [x2 = x * x]. *)
Fixpoint alternating (n : nat) (k term acc x2 : float) : float :=
  match n with
  | O => acc
  | S n' =>
      let term' := - term * x2 / ((k + 1) * (k + 2)) in
      alternating n' (k + 2) term' (acc + term') x2
  end.

Definition c_sin (x : float) : float :=
  if is_infinity x then nan else alternating 24 1 x x (x * x).

Definition c_cos (x : float) : float :=
  if is_infinity x then nan else alternating 24 0 1 1 (x * x).

Definition sin : float -> result float := math_1 c_sin.
Definition cos : float -> result float := math_1 c_cos.

(** [u - u^3/3 + u^5/5 - ...], for a small [u]. *)
Fixpoint atan_series (n : nat) (k power acc u2 : float) : float :=
  match n with
  | O => acc
  | S n' =>
      let power' := - power * u2 in
      atan_series n' (k + 2) power' (acc + power' / (k + 2)) u2
  end.

(** Halving of the angle: [atan t = 2 * atan (t / (1 + sqrt (1 + t*t)))]. *)
Definition half_angle (t : float) : float := t / (1 + PrimFloat.sqrt (1 + t * t)).

(** Arc tangent of [t] with [0 <= t <= 1]. *)
Definition atan_unit (t : float) : float :=
  let u := half_angle (half_angle t) in
  4 * atan_series 24 1 u u (u * u).

(** Arc tangent of [t >= 0]. *)
Definition atan_pos (t : float) : float :=
  if t <=? 1 then atan_unit t else pi / 2 - atan_unit (1 / t).

Definition c_atan (t : float) : float :=
  if t <? 0 then - atan_pos (- t) else atan_pos t.

Definition c_atan2 (y x : float) : float :=
  if 0 <? x then c_atan (y / x)
  else if x <? 0 then
    (if y <? 0 then c_atan (y / x) - pi else c_atan (y / x) + pi)
  else if 0 <? y then pi / 2
  else if y <? 0 then - (pi / 2)
  else y + x.

Definition atan2 (y x : float) : result float := Ok (c_atan2 y x).

(** [x ** n] for an int [n >= 0], by repeated multiplication. *)
Definition pow (x : float) (n : Z) : result float :=
  let r := Nat.iter (Z.to_nat n) (fun acc => acc * x) 1 in
  if is_infinity r && is_finite x then Raise OverflowError else Ok r.

Definition libm : math.impl :=
  math.mkImpl radians sin cos sqrt atan2 pow.

End approx.

(** ** The C library at a pair of antipodes

    Sine and cosine as CPython 3.11 on glibc 2.36 returns them at the
    arguments [haversine] meets for the points (8, 0) and (-8, 180):
      math.sin(0.13962634015954636) = 0.13917310096006544, and its
      opposite at the opposite argument;
      math.sin(1.5707963267948966) = 1.0, and its opposite likewise;
      math.cos(0.13962634015954636) = 0.9902680687415704, at both signs.
    Elsewhere the functions are those of [approx]. [radians] and [sqrt]
    are computed as the interpreter computes them, and [x ** 2] as
    [x * x], which is what the interpreter returns at these arguments
    ((-0.13917310096006544) ** 2 = 0.019369152030840567, 1.0 ** 2 = 1.0). *)

Module cpython.

Definition sin (x : float) : result float :=
  if x =? 0.13962634015954636 then Ok 0.13917310096006544
  else if x =? -0.13962634015954636 then Ok (-0.13917310096006544)
  else if x =? 1.5707963267948966 then Ok 1
  else if x =? -1.5707963267948966 then Ok (-1)
  else approx.sin x.

Definition cos (x : float) : result float :=
  if abs x =? 0.13962634015954636 then Ok 0.9902680687415704
  else approx.cos x.

Definition libm : math.impl :=
  math.mkImpl approx.radians sin cos approx.sqrt approx.atan2 approx.pow.

End cpython.

(** ** Vocabulary of the specification *)

Section Vocabulary.
Variable lower : string -> string.

(** The registry key occurs in the destination name, case-insensitively:
    the key within the name, not the name within the key. *)
Definition key_in_name (key end_loc_name : string) : Prop :=
  PyStr.occurs_in (lower key) (lower end_loc_name).

(** [(key, advisory)] is the first entry of [registry], in its order,
    whose key occurs in the name. *)
Definition first_match (registry : list (string * hazard)) (end_loc_name : string)
    (key : string) (advisory : hazard) : Prop :=
  exists earlier later,
    registry = earlier ++ (key, advisory) :: later /\
    key_in_name key end_loc_name /\
    Forall (fun kv => ~ key_in_name (fst kv) end_loc_name) earlier.

(** No key of the registry occurs in the name. *)
Definition no_match (registry : list (string * hazard)) (end_loc_name : string)
    : Prop :=
  Forall (fun kv => ~ key_in_name (fst kv) end_loc_name) registry.

(** The details of a hazard name a fire, case-insensitively. *)
Definition names_fire (h : string) : Prop :=
  PyStr.occurs_in "fire" (lower h) \/ PyStr.occurs_in "wildfire" (lower h).

End Vocabulary.

(** *** The disaster feed as the specification sees it *)

(** A feed entry: a title and an optional geographic point. *)
Record feed_entry : Type := mkEntry {
  entry_title : string;
  entry_point : option point
}.

(** The [<item>] element a feed entry is read from. *)
Definition item_of_entry (e : feed_entry) : item :=
  mkItem (Some (entry_title e))
         (match entry_point e with
          | Some p => Some (Ok p)
          | None => None
          end).

(** The feed was retrieved and parsed, and holds these entries. *)
Definition delivered (entries : list feed_entry) : result (response (list item)) :=
  Ok (mkResponse 200 (Ok (map item_of_entry entries))).

(** A request fails: [requests.get] raises, the status is an error status,
    or the content does not decode. *)
Inductive request_failure {A : Type} : result (response A) -> Prop :=
| network_error (e : exn) : request_failure (Raise e)
| http_error_status (status : Z) (body : result A) :
    (400 <= status < 600)%Z -> request_failure (Ok (mkResponse status body))
| malformed_content (status : Z) (e : exn) :
    request_failure (Ok (mkResponse status (Raise e))).

Section GdacsVocabulary.
Variable libm : math.impl.

(** The distance between a route point and a feed point is computed and
    is strictly less than 50 km. *)
Definition strictly_within_50km (route_point : point) (lat lon : float) : Prop :=
  exists d, haversine libm (fst route_point) (snd route_point) lat lon = Ok d /\
            (d <? 50) = true.

(** The distance is computed and is 50 km or more. *)
Definition at_least_50km (route_point : point) (lat lon : float) : Prop :=
  exists d, haversine libm (fst route_point) (snd route_point) lat lon = Ok d /\
            (50 <=? d) = true.

(** The distance is computed, whatever it is. *)
Definition distance_defined (route_point : point) (lat lon : float) : Prop :=
  exists d, haversine libm (fst route_point) (snd route_point) lat lon = Ok d.

(** Every distance between the route and the points of the entries is
    computed. *)
Definition distances_defined (route_points : list point)
    (entries : list feed_entry) : Prop :=
  forall e lat lon route_point,
    In e entries -> entry_point e = Some (lat, lon) ->
    In route_point route_points ->
    distance_defined route_point lat lon.

(** The proximity test as a boolean, for a distance that is computed. *)
Definition near (lat lon : float) (route_point : point) : bool :=
  match haversine libm (fst route_point) (snd route_point) lat lon with
  | Ok d => d <? 50
  | Raise _ => false
  end.

(** The record of one feed entry. *)
Definition disaster_record (e : feed_entry) (p : point) : hazard :=
  mkHazard p (entry_title e) "Near your route".

(** The correlator as section 4.3 of the specification words it: an entry
    without a point gives nothing; an entry with a point gives one record
    if some point of the route is strictly within 50 km; the records come
    in the order of the entries. *)
Definition correlate_entry (route_points : list point) (e : feed_entry)
    : list hazard :=
  match entry_point e with
  | None => []
  | Some p =>
      if existsb (near (fst p) (snd p)) route_points
      then [disaster_record e p] else []
  end.

Definition correlateDisasterAlerts (route_points : list point)
    (entries : list feed_entry) : list hazard :=
  flat_map (correlate_entry route_points) entries.

End GdacsVocabulary.

(** *** The weather sampler as the specification sees it *)

(** The record of a hazardous weather result. *)
Definition weather_record (p : point) (description : string)
    (place : option string) : hazard :=
  mkHazard p ("Weather Alert: " ++ description)%string
    (match place with Some n => n | None => "Along your route" end).

(** A decoded result whose primary condition has a code and a
    description. *)
Definition weather_result (code : Z) (description : string)
    (others : list condition) (place : option string) : weather_data :=
  mkWeatherData (mkCondition (Some code) (Some description) :: others) place.

(** What one sampled point adds to the hazards, from the outcome of its
    request. *)
Definition sample_hazards (p : point)
    (outcome : result (response weather_data)) : list hazard :=
  match outcome with
  | Raise _ => []
  | Ok resp =>
      match raise_for_status resp, decoded resp with
      | Ok _, Ok data =>
          fst (snd (alert_if_hazardous p data ([], [])))
      | _, _ => []
      end
  end.




(** The indices the sampler reads in a route of [n] points. *)
Definition sampled_indices (n : nat) : list nat := [0; n / 2; n - 1]%nat.

(** The point of a non-empty route at an index within it. *)
Definition route_at (route_points : list point) (i : nat) : point :=
  nth i route_points (0, 0).

Definition sampled_points (route_points : list point) : list point :=
  map (route_at route_points) (sampled_indices (List.length route_points)).

(** The registry's entry at a position. *)
Definition advisory_at (n : nat) : list hazard :=
  match nth_error MOCK_LOCAL_ADVISORIES n with
  | Some (_, advisory) => [advisory]
  | None => []
  end.

(** *** A request to evaluate with *)

Module sample.

(** The route and the destination of the specification's end-to-end
    example, and a longer route. *)
Definition route_points : list point := [(31.10, 77.10); (31.50, 77.50)].

Definition route_7 : list point :=
  [(31.10, 77.10); (31.15, 77.15); (31.20, 77.20); (31.25, 77.25);
   (31.30, 77.30); (31.40, 77.40); (31.50, 77.50)].

Definition end_name : string := "Shimla District".

(** A feed: an entry next to the first route point, an entry with no
    point, an entry far from the route. *)
Definition entries : list feed_entry := [
  mkEntry "Orange flood alert" (Some (31.11, 77.11));
  mkEntry "Alert with no position" None;
  mkEntry "Red earthquake alert" (Some (40, 80))
].

Definition api_key : option string := Some "0123456789abcdef".

(** A provider whose first request times out, whose second request
    reports moderate rain (code 501), and whose later requests answer
    with a server error. *)
Definition owm (k : nat) (p : point) : result (response weather_data) :=
  match k with
  | O => Raise RequestException
  | S O => Ok (mkResponse 200
                 (Ok (weather_result 501 "moderate rain" [] (Some "Theog"))))
  | _ => Ok (mkResponse 503 (Raise ParseError))
  end.

Definition date_today : string := "2026-11-03".

(** A route through the point (8, 0), an alert at its antipode and an
    alert on the route. *)
Definition route_at_8_0 : list point := [(8, 0)].

Definition antipode_alert : feed_entry :=
  mkEntry "Red earthquake alert" (Some (-8, 180)).

Definition alert_on_route : feed_entry :=
  mkEntry "Orange flood alert" (Some (8, 0)).

End sample.

(** *** What the distance needs of the math module *)

Section DistanceVocabulary.
Variable libm : math.impl.

(** What the C standard (Annex F) and the interpreter fix of the math
    module at zero and one. *)
Definition exact_at_zero : Prop :=
  math.radians libm 0 = Ok 0 /\
  math.sin libm 0 = Ok 0 /\
  math.pow libm 0 2 = Ok 0 /\
  math.sqrt libm 0 = Ok 0 /\
  math.sqrt libm 1 = Ok 1 /\
  math.atan2 libm 0 1 = Ok 0.

(** The cosine of the latitude is computed, and its square is finite (as
    the square of any number between -1 and 1 is). *)
Definition cosine_defined (lat : float) : Prop :=
  exists r c, math.radians libm lat = Ok r /\ math.cos libm r = Ok c /\
              is_finite (c * c) = true.

(** The math module treats the two signs alike: the conversion to radians
    and the sine are odd, exceptions included, and the square is even. The
    interpreter computes [radians] as a product by a constant and [x ** 2]
    as a product; the sine of the C library is odd. *)
Definition sign_symmetric : Prop :=
  (forall x, math.radians libm (- x) = rmap PrimFloat.opp (math.radians libm x)) /\
  (forall x, math.sin libm (- x) = rmap PrimFloat.opp (math.sin libm x)) /\
  (forall x, math.pow libm (- x) 2 = math.pow libm x 2).

(** [sin(radians(d) / 2) ** 2], the term of line 97 for a difference [d]
    of latitudes or of longitudes. *)
Definition half_chord (d : float) : result float :=
  rbind (math.radians libm d) (fun r =>
  rbind (math.sin libm (r / 2)) (fun s => math.pow libm s 2)).

(** [cos(radians(lat))]. *)
Definition cos_degrees (lat : float) : result float :=
  rbind (math.radians libm lat) (math.cos libm).

End DistanceVocabulary.

(** The functions of [approx] with a sine that is odd by construction: the
    series is summed at the absolute value of the argument, as the C
    library does. *)
Module mirrored.

Definition odd_extension (f : float -> result float) (x : float) : result float :=
  if x <? 0 then rmap PrimFloat.opp (f (- x))
  else if 0 <? x then f x
  else Ok x.

Definition sin : float -> result float := odd_extension approx.sin.

Definition libm : math.impl :=
  math.mkImpl approx.radians sin approx.cos approx.sqrt approx.atan2 approx.pow.

End mirrored.

(** *** Vocabulary of the further properties *)

(** [l1] is [l2] with some elements left out, the others in their order. *)
Inductive subsequence {A : Type} : list A -> list A -> Prop :=
| sub_nil (l : list A) : subsequence [] l
| sub_keep (x : A) (l1 l2 : list A) :
    subsequence l1 l2 -> subsequence (x :: l1) (x :: l2)
| sub_skip (x : A) (l1 l2 : list A) :
    subsequence l1 l2 -> subsequence l1 (x :: l2).

(** The record an [<item>] can give: it has a title and a point that
    parses. *)
Definition record_of_item (it : item) : list hazard :=
  match title it, georss_point it with
  | Some t, Some (Ok p) => [mkHazard p t "Near your route"]
  | _, _ => []
  end.

(** An [<item>] the loop body cannot read: it has no [<title>], or the text
    of its point does not parse as two floats. *)
Definition unreadable (it : item) : Prop :=
  title it = None \/ exists e, georss_point it = Some (Raise e).

(** ** [analyze_route], from the request (lines 167 to 219)

    The whole view function. What it reads of the request, of the geocoder,
    of the routing service is given below; [float(...)] on a query
    parameter, [str(e)] on an exception and the formatting of a float in an
    f-string belong to the interpreter and are parameters. Every call to a
    collaborator is recorded in the store, in call order. *)

(** The query parameters; [None] is an absent parameter. *)
Record request_args : Type := mkArgs {
  arg_start : option string;
  arg_end : option string;
  arg_start_lat : option string;
  arg_start_lon : option string
}.

(** [request.args.get(name, '')]. *)
Definition get_or_empty (v : option string) : string :=
  match v with Some s => s | None => "" end.

(** The truth value of [request.args.get(name)]: absent and empty are
    false. *)
Definition given (v : option string) : bool :=
  match v with Some s => PyStr.truthy s | None => false end.

(** A geocoder result, as far as the view reads it. *)
Record location : Type := mkLocation {
  latitude : float;
  longitude : float;
  address : string
}.

(** The decoded answer of the routing service: the ['routes'] key ([None]
    when absent), and in a route the list under ['geometry']['coordinates']
    ([None] when one of the two keys is absent), each position a list of
    numbers, longitude first. These are the documents of the shape the
    service documents: a JSON object whose routes are objects and whose
    positions are lists of numbers. A document of another shape (a body
    that is [null] or a number, a route that is not an object, a geometry
    given as a string) makes lines 201 to 204 raise [TypeError]; such
    documents have no counterpart here, and no property below speaks of
    them. *)
Record osrm_route : Type := mkOsrmRoute {
  coordinates : option (list (list float))
}.

Record osrm_data : Type := mkOsrmData {
  routes : option (list osrm_route)
}.

(** The calls the view makes to its collaborators. *)
Inductive call : Type :=
| Geocode (query : string)
| Route (url : string)
| Feed
| Weather (p : point).

(** What the view returns: [jsonify({'error': message}), status], or the
    answer with its five fields and status 200. *)
Inductive answer : Type :=
| ErrorAnswer (message : string) (status : Z)
| RouteAnswer (startName : string) (a : analysis).

Definition status_of (r : answer) : Z :=
  match r with
  | ErrorAnswer _ status => status
  | RouteAnswer _ _ => 200%Z
  end.

(** [[[p[1], p[0]] for p in coordinates]]: each position turned from
    (lon, lat, ...) into [lat, lon]. *)
Fixpoint swap_positions (positions : list (list float)) : result (list point) :=
  match positions with
  | [] => Ok []
  | p :: rest =>
      rbind (py_index p 1) (fun lat =>
      rbind (py_index p 0) (fun lon =>
      rbind (swap_positions rest) (fun tl =>
      Ok ((lat, lon) :: tl))))
  end.

Section View.
Variable lower : string -> string.
Variable libm : math.impl.
Variable date_today : string.
Variable OPENWEATHERMAP_API_KEY : option string.
Variable owm : nat -> point -> result (response weather_data).
Variable gdacs_get : result (response (list item)).
(** [geolocator.geocode]: a location, [None], or an exception. *)
Variable geocoder : string -> result (option location).
(** [requests.get] on the routing service, by URL. *)
Variable osrm : string -> result (response osrm_data).
(** [float(s)], [str(e)] and the text of a float in an f-string. *)
Variable py_float : string -> result float.
Variable exn_message : exn -> string.
Variable float_text : float -> string.
Local Open Scope py_scope.

Definition geocode (query : string) : M (list call) (option location) :=
  fun log => (geocoder query, log ++ [Geocode query]).

Definition route_request (url : string) : M (list call) (response osrm_data) :=
  fun log => (osrm url, log ++ [Route url]).

(** Line 193. *)
Definition osrm_url (start_coords end_coords : float * float) : string :=
  ("http://router.project-osrm.org/route/v1/driving/"
   ++ float_text (fst start_coords) ++ "," ++ float_text (snd start_coords)
   ++ ";"
   ++ float_text (fst end_coords) ++ "," ++ float_text (snd end_coords)
   ++ "?overview=full&geometries=geojson")%string.

(** What the first [try] block leaves: an answer returned from inside it,
    or the start coordinates and name and the end coordinates and name. *)
Definition places : Type :=
  ((float * float) * string * (float * float) * string)%type.

(** Lines 186 to 189. *)
Definition resolve_end (end_loc_name : string)
    (start_coords : float * float) (start_name : string)
    : M (list call) (answer + places) :=
  end_loc <- geocode end_loc_name ;;
  match end_loc with
  | None => ret (inl (ErrorAnswer "Could not find destination" 404))
  | Some e =>
      ret (inr (start_coords, start_name, (longitude e, latitude e), address e))
  end.

(** Lines 175 to 189, the body of the first [try]. *)
Definition resolve_places (args : request_args) : M (list call) (answer + places) :=
  let start_loc_name := get_or_empty (arg_start args) in
  let end_loc_name := get_or_empty (arg_end args) in
  if PyStr.truthy start_loc_name then
    start_loc <- geocode start_loc_name ;;
    match start_loc with
    | None => ret (inl (ErrorAnswer "Could not find start location" 404))
    | Some l =>
        resolve_end end_loc_name (longitude l, latitude l) (address l)
    end
  else if given (arg_start_lat args) && given (arg_start_lon args) then
    lon <- lift (py_float (get_or_empty (arg_start_lon args))) ;;
    lat <- lift (py_float (get_or_empty (arg_start_lat args))) ;;
    resolve_end end_loc_name (lon, lat) "Your Current Location"
  else ret (inl (ErrorAnswer "Start location not provided" 400)).

(** Lines 194 to 199, with the handler of the second [try]. *)
Definition fetch_route (url : string) : M (list call) (answer + osrm_data) :=
  try_except
    (osrm_response <- route_request url ;;
     lift (raise_for_status osrm_response) ;;;
     data <- lift (decoded osrm_response) ;;
     ret (inr data))
    (fun _ =>
       ret (inl (ErrorAnswer "Could not fetch route from routing service." 500))).

(** Lines 206 to 219 with their calls recorded: the feed is requested once,
    then the weather requests are made. *)
Definition report (start_name end_name : string) (route_points : list point)
    : M (list call) answer :=
  fun log =>
    (rmap (RouteAnswer start_name)
       (analyze_route lower libm date_today OPENWEATHERMAP_API_KEY owm gdacs_get
          end_name route_points),
     log ++ Feed ::
       map Weather
         (snd (fetch_weather_alerts OPENWEATHERMAP_API_KEY owm route_points))).

(** Lines 193 to 219: the view once the places are known. An exception
    raised here leaves the view: the code has no handler for it. *)
Definition route_and_report (resolved : places) : M (list call) answer :=
  let '(start_coords, start_name, end_coords, end_name) := resolved in
  fetched <- fetch_route (osrm_url start_coords end_coords) ;;
  match fetched with
  | inl early => ret early
  | inr data =>
      match routes data with
      | None | Some [] =>
          ret (ErrorAnswer "Could not find a route between locations" 404)
      | Some (first_route :: _) =>
          positions <- lift (dict_get (coordinates first_route)) ;;
          route_points <- lift (swap_positions positions) ;;
          report start_name end_name route_points
      end
  end.

(** The view: the first [try] with its handler, then the rest. *)
Definition analyze_route_view (args : request_args) : M (list call) answer :=
  resolved <-
    try_except (resolve_places args)
      (fun e => ret (inl (ErrorAnswer
                            ("Geocoding error: " ++ exn_message e)%string 500))) ;;
  match resolved with
  | inl early => ret early
  | inr found => route_and_report found
  end.

(** The view run on a request, from an empty record of calls: what it
    returns or raises, and the calls it made. *)
Definition run_view (args : request_args) : result answer * list call :=
  analyze_route_view args [].

End View.

(** *** Vocabulary of the view's properties *)

(** The route point of a position of the routing service: its second
    number, then its first. *)
Definition latlon (position : list float) : point :=
  (nth 1 position 0, nth 0 position 0).

(** A position has a longitude and a latitude. *)
Definition has_lon_lat (position : list float) : bool :=
  (2 <=? List.length position)%nat.

(** The kind of a call. *)
Definition is_geocode (c : call) : bool :=
  match c with Geocode _ => true | _ => false end.

Definition is_route (c : call) : bool :=
  match c with Route _ => true | _ => false end.

Definition is_feed (c : call) : bool :=
  match c with Feed => true | _ => false end.

Definition is_weather (c : call) : bool :=
  match c with Weather _ => true | _ => false end.

(** How many calls of a kind a record of calls holds. *)
Definition calls_of (kind : call -> bool) (log : list call) : nat :=
  List.length (filter kind log).

(** The routing service gives no route, and the answer the view then
    returns: the request failed, or the document has no route. *)
Inductive routing_error : result (response osrm_data) -> answer -> Prop :=
| routing_failed (r : result (response osrm_data)) :
    request_failure r ->
    routing_error r
      (ErrorAnswer "Could not fetch route from routing service." 500)
| routing_found_nothing (status : Z) (found : option (list osrm_route)) :
    ~ (400 <= status < 600)%Z ->
    found = None \/ found = Some [] ->
    routing_error (Ok (mkResponse status (Ok (mkOsrmData found))))
      (ErrorAnswer "Could not find a route between locations" 404).

(** *** A request to evaluate the view with *)

Module sample_request.

Definition chandigarh : location :=
  mkLocation 30.7333 76.7794 "Chandigarh, India".

Definition shimla : location :=
  mkLocation 31.1048 77.1734 "Shimla, Shimla District, Himachal Pradesh, India".

(** A geocoder that knows two places and times out on a third query. *)
Definition geocoder (query : string) : result (option location) :=
  if String.eqb query "Chandigarh" then Ok (Some chandigarh)
  else if String.eqb query "Shimla" then Ok (Some shimla)
  else if String.eqb query "Atlantis" then Ok None
  else Raise RequestException.

(** A route of three positions, longitude first, one with an elevation. *)
Definition positions : list (list float) :=
  [[76.7794; 30.7333]; [77.0; 30.9; 650]; [77.1734; 31.1048]].

Definition osrm (url : string) : result (response osrm_data) :=
  Ok (mkResponse 200 (Ok (mkOsrmData (Some [mkOsrmRoute (Some positions)])))).

Definition py_float (s : string) : result float :=
  if String.eqb s "30.7333" then Ok 30.7333
  else if String.eqb s "76.7794" then Ok 76.7794
  else Raise ValueError.

Definition exn_message (e : exn) : string :=
  match e with
  | ValueError => "could not convert string to float"
  | _ => "Service timed out"
  end.

Definition float_text (x : float) : string :=
  if x =? 76.7794 then "76.7794"
  else if x =? 30.7333 then "30.7333"
  else if x =? 77.1734 then "77.1734"
  else if x =? 31.1048 then "31.1048"
  else "0.0".

Definition by_name : request_args :=
  mkArgs (Some "Chandigarh") (Some "Shimla") None None.

Definition by_position : request_args :=
  mkArgs None (Some "Shimla") (Some "30.7333") (Some "76.7794").

Definition no_start : request_args :=
  mkArgs None (Some "Shimla") None (Some "76.7794").

(** The view of the sample collaborators. *)
Definition view (args : request_args) : result answer * list call :=
  run_view PyStr.ascii_lower approx.libm sample.date_today sample.api_key
    sample.owm (delivered sample.entries) geocoder osrm py_float exn_message
    float_text args.

End sample_request.

(** * Properties *)

(** ** Substring search *)

Lemma append_nil_r (s : string) : (s ++ "")%string = s.
Proof. induction s as [|c s IH]; simpl; [reflexivity | now rewrite IH]. Qed.

Lemma append_assoc (a b c : string) :
  ((a ++ b) ++ c)%string = (a ++ (b ++ c))%string.
Proof. induction a as [|x a IH]; simpl; [reflexivity | now rewrite IH]. Qed.

Lemma startswith_iff (p s : string) :
  PyStr.startswith p s = true <-> exists rest, s = (p ++ rest)%string.
Proof.
  revert s. induction p as [|a p IH]; intros s; simpl.
  - split; [intros _; now exists s | reflexivity].
  - destruct s as [|b s].
    + split; [discriminate | intros [rest H]; discriminate].
    + rewrite andb_true_iff, Ascii.eqb_eq, IH. split.
      * intros [-> [rest ->]]. now exists rest.
      * intros [rest H]. injection H as -> ->. split; [reflexivity | now exists rest].
Qed.

Lemma contains_iff (needle hay : string) :
  PyStr.contains needle hay = true <-> PyStr.occurs_in needle hay.
Proof.
  unfold PyStr.occurs_in. induction hay as [|c hay IH]; simpl.
  - rewrite orb_false_r, startswith_iff. split.
    + intros [rest H]. now exists EmptyString, rest.
    + intros [[|x before] [after H]]; simpl in H; [now exists after | discriminate].
  - rewrite orb_true_iff, startswith_iff, IH. split.
    + intros [[rest H] | [before [after H]]].
      * now exists EmptyString, rest.
      * exists (String c before), after. simpl. now rewrite H.
    + intros [[|x before] [after H]]; simpl in H.
      * left. now exists after.
      * right. injection H as _ H. now exists before, after.
Qed.

Lemma contains_false_iff (needle hay : string) :
  PyStr.contains needle hay = false <-> ~ PyStr.occurs_in needle hay.
Proof.
  rewrite <- contains_iff. destruct (PyStr.contains needle hay); split; intros H;
    try reflexivity; try discriminate. now elim H.
Qed.

(** ** The local advisory matcher *)

Section LocalProperties.
Variable lower : string -> string.

Lemma advisory_matches_iff (key end_loc_name : string) :
  advisory_matches lower key end_loc_name = true <-> key_in_name lower key end_loc_name.
Proof. apply contains_iff. Qed.

Lemma scan_advisories_cases (registry : list (string * hazard))
    (end_loc_name : string) (acc : list hazard) :
  (scan_advisories lower registry end_loc_name acc = acc /\
   no_match lower registry end_loc_name) \/
  (exists key advisory,
     scan_advisories lower registry end_loc_name acc = acc ++ [advisory] /\
     first_match lower registry end_loc_name key advisory).
Proof.
  induction registry as [|[k a] rest IH]; simpl.
  - left. split; [reflexivity | constructor].
  - destruct (advisory_matches lower k end_loc_name) eqn:E.
    + right. exists k, a. split; [reflexivity|].
      exists [], rest. repeat split; [now apply advisory_matches_iff | constructor].
    + assert (N : ~ key_in_name lower k end_loc_name).
      { intros H. apply advisory_matches_iff in H. congruence. }
      destruct IH as [[H1 H2] | (key & adv & H1 & earlier & later & H2 & H3 & H4)].
      * left. split; [assumption | now constructor].
      * right. exists key, adv. split; [assumption|].
        exists ((k, a) :: earlier), later. subst rest.
        repeat split; [assumption | now constructor].
Qed.

Lemma first_match_unique (registry : list (string * hazard)) (end_loc_name : string)
    (k1 k2 : string) (a1 a2 : hazard) :
  first_match lower registry end_loc_name k1 a1 ->
  first_match lower registry end_loc_name k2 a2 ->
  (k1, a1) = (k2, a2).
Proof.
  intros (e1 & l1 & H1 & M1 & F1) (e2 & l2 & H2 & M2 & F2).
  subst registry. revert e2 H2 F2.
  induction e1 as [|x e1 IH]; intros [|y e2] H2 F2; simpl in H2.
  - congruence.
  - injection H2 as <- _. apply Forall_inv in F2. now elim F2.
  - injection H2 as -> _. apply Forall_inv in F1. now elim F1.
  - injection H2 as -> H2.
    apply (IH (Forall_inv_tail F1) e2 H2 (Forall_inv_tail F2)).
Qed.

Lemma first_match_excludes_none (registry : list (string * hazard))
    (end_loc_name key : string) (advisory : hazard) :
  first_match lower registry end_loc_name key advisory ->
  ~ no_match lower registry end_loc_name.
Proof.
  intros (e & l & -> & Hm & _) F. unfold no_match in F.
  rewrite Forall_forall in F. apply (F (key, advisory)); [|exact Hm].
  apply in_or_app. right. now left.
Qed.

(** C2. For every destination name, [fetch_local_advisories] returns at
    most one record; it returns exactly [[advisory]] when [advisory] belongs
    to the first entry of the registry, in its written order, whose key
    occurs case-insensitively inside the destination name (every earlier
    key does not), and the empty list exactly when no key of the registry
    occurs in the name. The function is total: no name makes it fail. *)
Theorem fetch_local_advisories_first_match (end_loc_name : string) :
  (List.length (fetch_local_advisories lower end_loc_name) <= 1)%nat /\
  (forall advisory,
     fetch_local_advisories lower end_loc_name = [advisory] <->
     exists key,
       first_match lower MOCK_LOCAL_ADVISORIES end_loc_name key advisory) /\
  (fetch_local_advisories lower end_loc_name = [] <->
   no_match lower MOCK_LOCAL_ADVISORIES end_loc_name).
Proof.
  unfold fetch_local_advisories.
  destruct (scan_advisories_cases MOCK_LOCAL_ADVISORIES end_loc_name [])
    as [[E N] | (key & adv & E & F)]; rewrite E.
  - split; [simpl; lia|]. split.
    + intros advisory. split; [discriminate|].
      intros [k F]. elim (first_match_excludes_none _ _ _ _ F N).
    + split; [intros _; exact N | reflexivity].
  - split; [simpl; lia|]. split.
    + intros advisory. simpl. split.
      * intros H. injection H as <-. now exists key.
      * intros [k F']. now injection (first_match_unique _ _ _ _ _ _ F F') as _ ->.
    + simpl. split; [discriminate|].
      intros N. elim (first_match_excludes_none _ _ _ _ F N).
Qed.

End LocalProperties.

(** "Kufri" (entry 0) is written before "Himachal Pradesh" (entry 2). *)
Example local_manali_near_kufri :
  fetch_local_advisories PyStr.ascii_lower "Manali near Kufri" = advisory_at 0.
Proof. vm_compute. reflexivity. Qed.

(** Both "Shimla" and "Himachal Pradesh" occur; "Shimla" comes first. *)
Example local_first_key_wins :
  fetch_local_advisories PyStr.ascii_lower "Shimla, Himachal Pradesh, India"
  = advisory_at 1.
Proof. vm_compute. reflexivity. Qed.

(** The broader key wins when it is the only one that occurs. *)
Example local_state_only :
  fetch_local_advisories PyStr.ascii_lower "Manali, Kullu, HIMACHAL PRADESH"
  = advisory_at 2.
Proof. vm_compute. reflexivity. Qed.

(** The name within a key is no match, and no match is the empty list. *)
Example local_name_inside_key :
  fetch_local_advisories PyStr.ascii_lower "Kuf" = [] /\
  fetch_local_advisories PyStr.ascii_lower "New Delhi, India" = [].
Proof. vm_compute. split; reflexivity. Qed.

(** ** Aggregation *)

Section EndpointProperties.
Variable lower : string -> string.
Variable libm : math.impl.
Variable date_today : string.
Variable OPENWEATHERMAP_API_KEY : option string.
Variable owm : nat -> point -> result (response weather_data).
Variable gdacs_get : result (response (list item)).
Local Open Scope py_scope.

(** The endpoint in one equation: the three sources are asked in the order
    local, disaster, weather, and the answer is built from their lists. *)
Lemma analyze_route_eq (end_name : string) (route_points : list point) :
  analyze_route lower libm date_today OPENWEATHERMAP_API_KEY owm gdacs_get
    end_name route_points
  = (g <~ fetch_and_check_gdacs_alerts libm gdacs_get route_points ;;
     w <~ fst (fetch_weather_alerts OPENWEATHERMAP_API_KEY owm route_points) ;;
     let hs := fetch_local_advisories lower end_name ++ g ++ w in
     Ok (mkAnalysis end_name route_points hs
           (get_satellite_url lower date_today (primary_details hs)))).
Proof.
  unfold analyze_route, all_hazards.
  destruct (fetch_and_check_gdacs_alerts libm gdacs_get route_points) as [g|e];
    simpl; [|reflexivity].
  destruct (fst (fetch_weather_alerts OPENWEATHERMAP_API_KEY owm route_points))
    as [w|e]; simpl; [|reflexivity].
  now rewrite <- app_assoc.
Qed.

(** C1. The aggregate of three hazard lists is their concatenation, local
    then disaster then weather, each list kept in its own order and nothing
    sorted; for single records [L], [D], [W] it is [[L; D; W]]; and the
    hazards the endpoint answers with are the aggregate of what the three
    sources returned, the local advisories first. *)
Theorem all_hazards_concatenation
    (local_hazards gdacs_hazards weather_hazards : list hazard) :
  all_hazards local_hazards gdacs_hazards weather_hazards
  = local_hazards ++ gdacs_hazards ++ weather_hazards /\
  (forall L D W : hazard, all_hazards [L] [D] [W] = [L; D; W]) /\
  (forall end_name route_points,
     rmap hazards
       (analyze_route lower libm date_today OPENWEATHERMAP_API_KEY owm
          gdacs_get end_name route_points)
     = (g <~ fetch_and_check_gdacs_alerts libm gdacs_get route_points ;;
        w <~ fst (fetch_weather_alerts OPENWEATHERMAP_API_KEY owm route_points) ;;
        Ok (fetch_local_advisories lower end_name ++ g ++ w))).
Proof.
  split; [|split].
  - unfold all_hazards. now rewrite <- app_assoc.
  - reflexivity.
  - intros end_name route_points. rewrite analyze_route_eq.
    destruct (fetch_and_check_gdacs_alerts libm gdacs_get route_points) as [g|e];
      simpl; [|reflexivity].
    now destruct (fst (fetch_weather_alerts OPENWEATHERMAP_API_KEY owm route_points)).
Qed.

(** ** The imagery layer *)

Lemma viirs_is_not_modis : viirs_url date_today <> modis_url date_today.
Proof. unfold viirs_url, modis_url. simpl. discriminate. Qed.

Lemma mentions_fire_iff (hazard_type : option string) :
  lower "" = "" ->
  mentions_fire lower hazard_type = true <->
  exists h, hazard_type = Some h /\ names_fire lower h.
Proof.
  intros L. unfold mentions_fire, names_fire. destruct hazard_type as [h|].
  - rewrite andb_true_iff, orb_true_iff, !contains_iff. split.
    + intros [_ F]. now exists h.
    + intros [h' [E F]]. injection E as <-. split; [|exact F].
      destruct h; [|reflexivity]. rewrite L in F.
      destruct F as [F|F]; apply contains_iff in F; discriminate.
  - split; [discriminate | intros [h [E _]]; discriminate].
Qed.

(** C10. Provided lower-casing the empty string gives the empty string,
    [get_satellite_url] returns the VIIRS thermal-anomalies template exactly
    when a hazard string was given and it contains "fire" or "wildfire"
    case-insensitively, and the MODIS TrueColor template in every other
    case; the endpoint calls it with the details of the first aggregated
    hazard, or with no argument when there is no hazard, so that an empty
    aggregate gets the MODIS template. *)
Theorem get_satellite_url_selection (L : lower "" = "") :
  (forall hazard_type,
     get_satellite_url lower date_today hazard_type = viirs_url date_today <->
     exists h, hazard_type = Some h /\ names_fire lower h) /\
  (forall hazard_type,
     get_satellite_url lower date_today hazard_type = modis_url date_today <->
     ~ exists h, hazard_type = Some h /\ names_fire lower h) /\
  (forall hs : list hazard,
     get_satellite_url lower date_today (primary_details hs) = viirs_url date_today <->
     exists first rest, hs = first :: rest /\ names_fire lower (details first)) /\
  get_satellite_url lower date_today (primary_details []) = modis_url date_today /\
  (forall end_name route_points,
     let answer :=
       analyze_route lower libm date_today OPENWEATHERMAP_API_KEY owm gdacs_get
         end_name route_points in
     rmap satelliteUrl answer
     = rmap (fun a => get_satellite_url lower date_today
                        (primary_details (hazards a))) answer).
Proof.
  assert (V : forall hazard_type,
             get_satellite_url lower date_today hazard_type = viirs_url date_today <->
             exists h, hazard_type = Some h /\ names_fire lower h).
  { intros ht. rewrite <- (mentions_fire_iff ht L). unfold get_satellite_url.
    destruct (mentions_fire lower ht); split; intros H;
      [reflexivity | reflexivity | | discriminate].
    symmetry in H. elim (viirs_is_not_modis H). }
  split; [exact V|]. split; [|split; [|split; [|]]].
  - intros ht. rewrite <- V. unfold get_satellite_url.
    destruct (mentions_fire lower ht); split; intros H.
    + elim (viirs_is_not_modis H).
    + now elim H.
    + intros H'. symmetry in H'. elim (viirs_is_not_modis H').
    + reflexivity.
  - intros hs. rewrite V. destruct hs as [|h rest]; simpl; split.
    + intros [h [E _]]. discriminate.
    + intros [f [r [E _]]]. discriminate.
    + intros [h' [E F]]. injection E as <-. now exists h, rest.
    + intros [f [r [E F]]]. injection E as <- <-. now exists (details h).
  - reflexivity.
  - intros end_name route_points answer. subst answer. rewrite analyze_route_eq.
    destruct (fetch_and_check_gdacs_alerts libm gdacs_get route_points) as [g|e];
      simpl; [|reflexivity].
    now destruct (fst (fetch_weather_alerts OPENWEATHERMAP_API_KEY owm route_points)).
Qed.

End EndpointProperties.

(** ** The distance primitive *)

(** C6. The claim fails on the code. For the antipodes (8, 0) and
    (-8, 180), with the C library's sine and cosine, [a] rounds to
    [1.0000000000000002]: it exceeds 1, [1 - a] is negative,
    [math.sqrt(1 - a)] raises [ValueError], and [haversine] returns no
    distance, in either order of the two points. *)
Theorem haversine_antipodes_domain_error :
  haversine_a cpython.libm 8 0 (-8) 180 = Ok 1.0000000000000002 /\
  (1 <? 1.0000000000000002) = true /\
  math.sqrt cpython.libm (1 - 1.0000000000000002) = Raise ValueError /\
  haversine cpython.libm 8 0 (-8) 180 = Raise ValueError /\
  haversine cpython.libm (-8) 180 8 0 = Raise ValueError.
Proof. repeat split; vm_compute; reflexivity. Qed.

(** ** Loops over a store *)

Lemma for_each_app {S A} (xs ys : list A) (body : A -> M S unit) (s : S) :
  for_each (xs ++ ys) body s
  = bind (for_each xs body) (fun _ => for_each ys body) s.
Proof.
  revert s. induction xs as [|x xs IH]; intros s; simpl.
  - reflexivity.
  - unfold bind in *. destruct (body x s) as [[[]|e] s']; [apply IH | reflexivity].
Qed.

(** A handler that only prints turns every outcome of the block into a
    normal one, and keeps the store the block left. *)
Lemma try_except_pass {S} (body : M S unit) (s : S) :
  try_except body (fun _ => ret tt) s = (Ok tt, snd (body s)).
Proof.
  unfold try_except, ret. now destruct (body s) as [[[]|e] s'].
Qed.

(** ** Comparison of floats *)

Lemma SFcompare_swap (x y : SpecFloat.spec_float) :
  SpecFloat.SFcompare y x = option_map CompOpp (SpecFloat.SFcompare x y).
Proof.
  destruct x as [sx|sx| |sx mx ex], y as [sy|sy| |sy my ey]; simpl;
    try reflexivity; try (now destruct sx); try (now destruct sy);
    try (now destruct sx, sy).
  change (Pos.compare_cont Eq mx my) with (Pos.compare mx my).
  change (Pos.compare_cont Eq my mx) with (Pos.compare my mx).
  rewrite (Z.compare_antisym ey ex), (Pos.compare_antisym my mx).
  destruct sx, sy; simpl; try reflexivity;
    destruct (ey ?= ex)%Z; simpl; try reflexivity;
    now destruct (my ?= mx)%positive.
Qed.

(** A distance that is at least 50 is not less than 50. *)
Lemma leb_not_ltb (x y : float) : (x <=? y) = true -> (y <? x) = false.
Proof.
  rewrite leb_spec, ltb_spec. unfold SpecFloat.SFleb, SpecFloat.SFltb.
  rewrite (SFcompare_swap (Prim2SF x) (Prim2SF y)).
  now destruct (SpecFloat.SFcompare (Prim2SF x) (Prim2SF y)) as [[]|].
Qed.

(** ** The disaster correlator *)

Section GdacsProperties.
Variable libm : math.impl.

Lemma near_true_iff (lat lon : float) (route_point : point) :
  near libm lat lon route_point = true <->
  strictly_within_50km libm route_point lat lon.
Proof.
  unfold near, strictly_within_50km.
  destruct (haversine libm (fst route_point) (snd route_point) lat lon) as [d|e].
  - split; [intros H; now exists d | intros [d' [E H]]; congruence].
  - split; [discriminate | intros [d' [E _]]; discriminate].
Qed.

(** No route point passes the test: the scan ends with the store as it
    was. *)
Lemma scan_route_all_far (route_points : list point) (lat lon : float)
    (t : string) (s : list hazard) :
  (forall rp, In rp route_points -> distance_defined libm rp lat lon) ->
  existsb (near libm lat lon) route_points = false ->
  scan_route libm route_points lat lon t s = (Ok tt, s).
Proof.
  induction route_points as [|rp rest IH]; intros D F; simpl in *.
  - reflexivity.
  - apply orb_false_iff in F as [F1 F2].
    destruct (D rp (or_introl eq_refl)) as [d E]. unfold near in F1.
    unfold bind, lift. rewrite E in *. unfold within_50. rewrite F1.
    apply IH; [intros rp' I; apply D; now right | exact F2].
Qed.

(** The scan stops at the first route point that passes the test: the
    record is appended whatever the route is after that point. *)
Lemma scan_route_first_near (before after : list point) (rp : point)
    (lat lon : float) (t : string) (s : list hazard) :
  (forall rp', In rp' before -> distance_defined libm rp' lat lon) ->
  existsb (near libm lat lon) before = false ->
  strictly_within_50km libm rp lat lon ->
  scan_route libm (before ++ rp :: after) lat lon t s
  = (Ok tt, s ++ [mkHazard (lat, lon) t "Near your route"]).
Proof.
  induction before as [|rp0 rest IH]; intros D F [d [E W]]; simpl in *.
  - unfold bind, lift. rewrite E. unfold within_50. now rewrite W.
  - apply orb_false_iff in F as [F1 F2].
    destruct (D rp0 (or_introl eq_refl)) as [d0 E0]. unfold near in F1.
    unfold bind, lift. rewrite E0 in *. unfold within_50. rewrite F1.
    apply IH; [intros rp' I; apply D; now right | exact F2 | now exists d].
Qed.

Lemma existsb_first {A} (f : A -> bool) (l : list A) :
  existsb f l = true ->
  exists before x after,
    l = before ++ x :: after /\ existsb f before = false /\ f x = true.
Proof.
  induction l as [|a l IH]; simpl; [discriminate|].
  destruct (f a) eqn:E; simpl.
  - intros _. now exists [], a, l.
  - intros H. destruct (IH H) as (b & x & r & -> & Hb & Hx).
    exists (a :: b), x, r. simpl. now rewrite E.
Qed.

(** With every distance computed, the scan appends what the
    specification's test says. *)
Lemma scan_route_defined (route_points : list point) (lat lon : float)
    (t : string) (s : list hazard) :
  (forall rp, In rp route_points -> distance_defined libm rp lat lon) ->
  scan_route libm route_points lat lon t s
  = (Ok tt,
     s ++ if existsb (near libm lat lon) route_points
          then [mkHazard (lat, lon) t "Near your route"] else []).
Proof.
  intros D. destruct (existsb (near libm lat lon) route_points) eqn:F.
  - destruct (existsb_first _ _ F) as (b & x & r & -> & Hb & Hx).
    apply scan_route_first_near.
    + intros rp' I. apply D, in_or_app. now left.
    + exact Hb.
    + now apply near_true_iff.
  - rewrite app_nil_r. now apply scan_route_all_far.
Qed.

Lemma check_item_entry (route_points : list point) (e : feed_entry)
    (s : list hazard) :
  (forall lat lon rp, entry_point e = Some (lat, lon) -> In rp route_points ->
                      distance_defined libm rp lat lon) ->
  check_item libm route_points (item_of_entry e) s
  = (Ok tt, s ++ correlate_entry libm route_points e).
Proof.
  intros D. unfold check_item, item_of_entry, correlate_entry. simpl.
  unfold bind at 1, lift at 1. destruct (entry_point e) as [[lat lon]|].
  - unfold bind, lift. simpl. rewrite scan_route_defined by eauto.
    reflexivity.
  - unfold ret. now rewrite app_nil_r.
Qed.

Lemma for_each_entries (route_points : list point) (entries : list feed_entry)
    (s : list hazard) :
  distances_defined libm route_points entries ->
  for_each (map item_of_entry entries) (check_item libm route_points) s
  = (Ok tt, s ++ correlateDisasterAlerts libm route_points entries).
Proof.
  revert s. induction entries as [|e entries IH]; intros s D; simpl.
  - unfold ret. now rewrite app_nil_r.
  - unfold bind. rewrite check_item_entry.
    + rewrite IH.
      * now rewrite <- app_assoc.
      * intros e' lat lon rp I. apply D. now right.
    + intros lat lon rp P I. apply (D e); [now left | exact P | exact I].
Qed.

(** What the function returns, from what the [try] block does to the
    store. *)
Lemma fetch_gdacs_eq (http_get : result (response (list item)))
    (route_points : list point) :
  fetch_and_check_gdacs_alerts libm http_get route_points
  = Ok (snd (gdacs_try libm http_get route_points [])).
Proof.
  unfold fetch_and_check_gdacs_alerts, bind. rewrite try_except_pass. reflexivity.
Qed.

(** An entry none of whose distances to the route is under 50 km leaves
    the store as it was. *)
Lemma check_item_far (route_points : list point) (t : string) (lat lon : float)
    (s : list hazard) :
  (forall rp, In rp route_points -> at_least_50km libm rp lat lon) ->
  check_item libm route_points (mkItem (Some t) (Some (Ok (lat, lon)))) s
  = (Ok tt, s).
Proof.
  intros Far. unfold check_item. simpl. unfold bind, lift. simpl.
  apply scan_route_all_far.
  - intros rp I. destruct (Far rp I) as [d [E _]]. now exists d.
  - apply not_true_is_false. intros H.
    apply existsb_exists in H as [rp [I N]].
    apply near_true_iff in N as [d [E W]].
    destruct (Far rp I) as [d' [E' G]]. apply leb_not_ltb in G. congruence.
Qed.

(** X8. The correlator where every distance is computed. With the feed
    delivered and every distance between the route and the points of the
    entries computed, the correlator returns, in the order of the feed
    entries, nothing for an entry without a point and, for an entry with a
    point, exactly one record (coords the entry's point, details the
    entry's title, location name "Near your route") if some route point is
    strictly within 50 km of it and nothing otherwise. The scan of the
    route stops at the first route point that matches: the record is
    emitted whatever follows that point in the route, nearer points and
    points whose distance cannot be computed included. *)
Theorem gdacs_correlation (route_points : list point) (entries : list feed_entry)
    (D : distances_defined libm route_points entries) :
  fetch_and_check_gdacs_alerts libm (delivered entries) route_points
  = Ok (correlateDisasterAlerts libm route_points entries) /\
  (forall e, entry_point e = None -> correlate_entry libm route_points e = []) /\
  (forall e lat lon, entry_point e = Some (lat, lon) ->
     (correlate_entry libm route_points e
      = [mkHazard (lat, lon) (entry_title e) "Near your route"] /\
      exists rp, In rp route_points /\ strictly_within_50km libm rp lat lon) \/
     (correlate_entry libm route_points e = [] /\
      forall rp, In rp route_points -> ~ strictly_within_50km libm rp lat lon)) /\
  (forall e lat lon first_near before after,
     entry_point e = Some (lat, lon) ->
     (forall rp, In rp before ->
        distance_defined libm rp lat lon /\ ~ strictly_within_50km libm rp lat lon) ->
     strictly_within_50km libm first_near lat lon ->
     fetch_and_check_gdacs_alerts libm (delivered [e])
       (before ++ first_near :: after)
     = Ok [mkHazard (lat, lon) (entry_title e) "Near your route"]).
Proof.
  split; [|split; [|split]].
  - rewrite fetch_gdacs_eq. unfold gdacs_try, delivered, bind, lift. simpl.
    now rewrite for_each_entries.
  - intros e P. unfold correlate_entry. now rewrite P.
  - intros e lat lon P. unfold correlate_entry. rewrite P. simpl.
    destruct (existsb (near libm lat lon) route_points) eqn:F.
    + left. split; [reflexivity|].
      apply existsb_exists in F as [rp [I N]]. exists rp.
      split; [exact I | now apply near_true_iff].
    + right. split; [reflexivity|]. intros rp I N.
      apply near_true_iff in N.
      assert (T : existsb (near libm lat lon) route_points = true)
        by (apply existsb_exists; now exists rp).
      congruence.
  - intros e lat lon first_near before after P B N.
    rewrite fetch_gdacs_eq. unfold gdacs_try, delivered, bind, lift. simpl.
    unfold check_item, item_of_entry. rewrite P. simpl.
    unfold bind, lift. simpl.
    rewrite scan_route_first_near; [reflexivity | | | exact N].
    + intros rp I. now apply B.
    + apply not_true_is_false. intros H.
      apply existsb_exists in H as [rp [I W]]. apply near_true_iff in W.
      now apply (proj2 (B rp I)).
Qed.

Lemma check_item_error (rp : point) (rest : list point) (e : feed_entry)
    (lat lon : float) (err : exn) (s : list hazard) :
  entry_point e = Some (lat, lon) ->
  haversine libm (fst rp) (snd rp) lat lon = Raise err ->
  check_item libm (rp :: rest) (item_of_entry e) s = (Raise err, s).
Proof.
  intros P H. unfold check_item, item_of_entry. rewrite P. simpl.
  unfold bind, lift. simpl. now rewrite H.
Qed.

(** A distance that cannot be computed ends the scan of the feed: the
    exception leaves both loops, the handler prints, and the entries from
    that one on add nothing, whatever their distance to the route. *)
Lemma gdacs_entries_after_error (route_points : list point)
    (pre post : list feed_entry) (e : feed_entry) (lat lon : float)
    (rp : point) (rest : list point) (err : exn) :
  distances_defined libm route_points pre ->
  entry_point e = Some (lat, lon) ->
  route_points = rp :: rest ->
  haversine libm (fst rp) (snd rp) lat lon = Raise err ->
  fetch_and_check_gdacs_alerts libm (delivered (pre ++ e :: post)) route_points
  = Ok (correlateDisasterAlerts libm route_points pre).
Proof.
  intros D P R H. subst route_points. rewrite fetch_gdacs_eq. f_equal.
  unfold gdacs_try, delivered, bind, lift. simpl.
  rewrite map_app, for_each_app. unfold bind.
  rewrite for_each_entries by exact D.
  rewrite map_cons. cbn [for_each]. unfold bind.
  now rewrite (check_item_error _ _ _ _ _ _ _ P H).
Qed.

(** C7. The claim fails on the code. On the route through (8, 0), an alert
    on the route is reported when it comes alone; when an alert at the
    antipode (-8, 180) comes before it in the feed, [haversine] raises
    [ValueError] for the antipode ([1 - a] is negative), the handler ends
    the scan, and the alert on the route is lost: the correlator returns
    the empty list where the rule of the specification gives one record. *)
Theorem gdacs_scan_lost_after_antipode :
  haversine cpython.libm 8 0 (-8) 180 = Raise ValueError /\
  strictly_within_50km cpython.libm (8, 0) 8 0 /\
  fetch_and_check_gdacs_alerts cpython.libm (delivered [sample.alert_on_route])
    sample.route_at_8_0
  = Ok [mkHazard (8, 0) "Orange flood alert" "Near your route"] /\
  fetch_and_check_gdacs_alerts cpython.libm
    (delivered [sample.antipode_alert; sample.alert_on_route])
    sample.route_at_8_0
  = Ok [] /\
  correlateDisasterAlerts cpython.libm sample.route_at_8_0
    [sample.antipode_alert; sample.alert_on_route]
  = [mkHazard (8, 0) "Orange flood alert" "Near your route"].
Proof.
  split; [vm_compute; reflexivity|].
  split; [exists 0; split; vm_compute; reflexivity|].
  split; [vm_compute; reflexivity|].
  split; vm_compute; reflexivity.
Qed.

(** Whatever happens to the distances, an entry no route point of which
    passes the test adds no record: the store is the same after the entry
    as before it. *)
Lemma check_item_not_near (route_points : list point) (t : string)
    (lat lon : float) (s : list hazard) :
  existsb (near libm lat lon) route_points = false ->
  snd (check_item libm route_points (mkItem (Some t) (Some (Ok (lat, lon)))) s)
  = s.
Proof.
  unfold check_item. simpl. unfold bind at 1, lift at 1.
  unfold bind at 1, lift at 1. simpl.
  induction route_points as [|rp rest IH]; simpl; [reflexivity|].
  intros F. apply orb_false_iff in F as [F1 F2]. unfold near in F1.
  unfold bind, lift.
  destruct (haversine libm (fst rp) (snd rp) lat lon) as [d|e]; [|reflexivity].
  unfold within_50. rewrite F1. now apply IH.
Qed.

(** C3. The proximity test is strict. If every distance between the point
    of a feed entry and the route is 50 km or more, the entry emits no
    record: the correlator returns what it returns for the feed without
    that entry, and nothing for that entry alone. A distance of exactly
    50.0 is such a distance, and fails the test. *)
Theorem gdacs_threshold_strict (status : Z) (before after : list item)
    (t : string) (lat lon : float) (route_points : list point)
    (Far : forall rp, In rp route_points -> at_least_50km libm rp lat lon) :
  fetch_and_check_gdacs_alerts libm
    (Ok (mkResponse status
           (Ok (before ++ mkItem (Some t) (Some (Ok (lat, lon))) :: after))))
    route_points
  = fetch_and_check_gdacs_alerts libm
      (Ok (mkResponse status (Ok (before ++ after)))) route_points /\
  fetch_and_check_gdacs_alerts libm (delivered [mkEntry t (Some (lat, lon))])
    route_points = Ok [] /\
  (forall rp, haversine libm (fst rp) (snd rp) lat lon = Ok 50 ->
              at_least_50km libm rp lat lon) /\
  within_50 50 = false.
Proof.
  split; [|split; [|split]].
  - rewrite !fetch_gdacs_eq. f_equal. f_equal. unfold gdacs_try, bind, lift.
    unfold raise_for_status. simpl.
    destruct ((400 <=? status)%Z && (status <? 600)%Z); simpl; [reflexivity|].
    rewrite !for_each_app. unfold bind.
    destruct (for_each before _ []) as [[[]|e] s]; [|reflexivity].
    simpl. unfold bind. now rewrite check_item_far.
  - rewrite fetch_gdacs_eq. unfold gdacs_try, delivered, bind, lift. simpl.
    unfold bind, item_of_entry. simpl. now rewrite check_item_far.
  - intros rp E. exists 50%float. split; [exact E | reflexivity].
  - reflexivity.
Qed.

(** C8. If retrieving or parsing the feed fails (the request raises, the
    status is an error status, or the document does not parse), the
    correlator returns the empty list. Whatever the request gives, the
    correlator returns a list and raises nothing, and with a failed feed
    the endpoint answers with the local and weather hazards. *)
Theorem gdacs_failure_contained (http_get : result (response (list item)))
    (route_points : list point) (F : request_failure http_get) :
  fetch_and_check_gdacs_alerts libm http_get route_points = Ok [] /\
  (forall any_get, exists hs,
     fetch_and_check_gdacs_alerts libm any_get route_points = Ok hs) /\
  (forall lower date_today key owm end_name,
     rmap hazards
       (analyze_route lower libm date_today key owm http_get end_name route_points)
     = rmap (fun w => fetch_local_advisories lower end_name ++ w)
         (fst (fetch_weather_alerts key owm route_points))).
Proof.
  assert (E : fetch_and_check_gdacs_alerts libm http_get route_points = Ok []).
  { rewrite fetch_gdacs_eq. f_equal. unfold gdacs_try, bind, lift.
    destruct F as [e | status body R | status e]; simpl.
    - reflexivity.
    - unfold raise_for_status. simpl.
      replace ((400 <=? status)%Z && (status <? 600)%Z) with true; [reflexivity|].
      symmetry. apply andb_true_iff. split; [apply Z.leb_le | apply Z.ltb_lt]; lia.
    - now destruct (raise_for_status _) as [[]|e']. }
  split; [exact E|]. split.
  - intros any_get. rewrite fetch_gdacs_eq. eauto.
  - intros lower date_today key owm end_name. rewrite analyze_route_eq, E. simpl.
    now destruct (fst (fetch_weather_alerts key owm route_points)).
Qed.

End GdacsProperties.

(** ** The weather sampler *)

Lemma py_index_nat {A} (l : list A) (i : nat) (d : A) :
  (i < List.length l)%nat -> py_index l (Z.of_nat i) = Ok (nth i l d).
Proof.
  intros H. unfold py_index.
  replace (Z.of_nat i <? 0)%Z with false by (symmetry; apply Z.ltb_ge; lia).
  replace ((0 <=? Z.of_nat i) && (Z.of_nat i <? Z.of_nat (List.length l)))%Z
    with true
    by (symmetry; apply andb_true_iff; split;
        [apply Z.leb_le | apply Z.ltb_lt]; lia).
  rewrite Nat2Z.id. destruct (nth_error l i) as [a|] eqn:E.
  - now rewrite (nth_error_nth _ _ d E).
  - apply nth_error_None in E. lia.
Qed.

Lemma py_index_last {A} (l : list A) (d : A) :
  l <> [] -> py_index l (-1) = Ok (nth (List.length l - 1) l d).
Proof.
  intros H. assert (0 < List.length l)%nat by (destruct l; simpl; [easy | lia]).
  rewrite <- (py_index_nat l (List.length l - 1) d) by lia.
  unfold py_index. simpl (-1 <? 0)%Z. cbv iota.
  replace (-1 + Z.of_nat (List.length l))%Z with (Z.of_nat (List.length l - 1)) by lia.
  replace (Z.of_nat (List.length l - 1) <? 0)%Z with false
    by (symmetry; apply Z.ltb_ge; lia).
  reflexivity.
Qed.

Lemma py_index_empty {A} (i : Z) : py_index (@nil A) i = Raise IndexError.
Proof.
  unfold py_index. simpl.
  destruct (i <? 0)%Z eqn:E; destruct ((0 <=? _) && _)%Z eqn:F; try reflexivity;
    apply andb_true_iff in F as [F1 F2];
    apply Z.leb_le in F1; apply Z.ltb_lt in F2; lia.
Qed.

Section WeatherProperties.
Variable OPENWEATHERMAP_API_KEY : option string.
Variable owm : nat -> point -> result (response weather_data).

(** The [if] statement leaves the requests alone and raises or appends. *)
Lemma alert_if_hazardous_store (p : point) (data : weather_data)
    (hs : list hazard) (asked : list point) :
  snd (alert_if_hazardous p data (hs, asked))
  = (hs ++ fst (snd (alert_if_hazardous p data ([], []))), asked).
Proof.
  unfold alert_if_hazardous. destruct (weather data) as [|w0 rest].
  - simpl. now rewrite app_nil_r.
  - unfold bind, lift. destruct (dict_get (id w0)) as [i|e]; simpl.
    + destruct (hazardous_id i); simpl.
      * destruct (dict_get (description w0)) as [d|e]; simpl;
          [reflexivity | now rewrite app_nil_r].
      * now rewrite app_nil_r.
    + now rewrite app_nil_r.
Qed.

(** One turn of the loop: one request, made for the point, and what its
    outcome adds; nothing is raised. *)
Lemma check_point_eq (p : point) (hs : list hazard) (asked : list point) :
  check_point owm p (hs, asked)
  = (Ok tt, (hs ++ sample_hazards p (owm (List.length asked) p), asked ++ [p])).
Proof.
  unfold check_point. rewrite try_except_pass. f_equal.
  unfold bind, requests_get, lift, sample_hazards.
  destruct (owm (List.length asked) p) as [resp|e]; simpl;
    [|now rewrite app_nil_r].
  destruct (raise_for_status resp) as [[]|e]; simpl; [|now rewrite app_nil_r].
  destruct (decoded resp) as [data|e]; simpl; [|now rewrite app_nil_r].
  apply alert_if_hazardous_store.
Qed.

(** With a key and a non-empty route: three requests, for the first, the
    middle and the last point, each adding what its outcome gives. *)
Lemma fetch_weather_alerts_samples (route_points : list point) :
  key_configured OPENWEATHERMAP_API_KEY = true ->
  route_points <> [] ->
  let p0 := route_at route_points 0 in
  let p1 := route_at route_points (List.length route_points / 2) in
  let p2 := route_at route_points (List.length route_points - 1) in
  fetch_weather_alerts OPENWEATHERMAP_API_KEY owm route_points
  = (Ok (sample_hazards p0 (owm 0%nat p0) ++
         sample_hazards p1 (owm 1%nat p1) ++
         sample_hazards p2 (owm 2%nat p2)),
     [p0; p1; p2]).
Proof.
  intros K N p0 p1 p2.
  assert (L : (0 < List.length route_points)%nat)
    by (destruct route_points; simpl; [easy | lia]).
  pose proof (py_index_nat route_points 0 (0, 0)%float L) as E0.
  assert (E1 : py_index route_points (Z.of_nat (List.length route_points) / 2)
               = Ok p1).
  { change 2%Z with (Z.of_nat 2). rewrite <- Nat2Z.inj_div.
    apply py_index_nat, Nat.Div0.div_lt_upper_bound. lia. }
  pose proof (py_index_last route_points (0, 0)%float N) as E2.
  simpl Z.of_nat in E0. fold (route_at route_points 0) in E0.
  fold (route_at route_points (List.length route_points - 1)) in E2.
  fold p0 in E0. fold p2 in E2.
  unfold fetch_weather_alerts, weather_body. rewrite K.
  change (negb true) with false. cbv iota.
  unfold bind, lift. rewrite E0, E1, E2. cbv beta iota.
  unfold for_each, bind. rewrite check_point_eq. cbv iota.
  rewrite check_point_eq. cbv iota. rewrite check_point_eq. simpl.
  now rewrite <- !app_assoc.
Qed.

(** The whole function, case by case. *)
Lemma fetch_weather_alerts_eq (route_points : list point) :
  fetch_weather_alerts OPENWEATHERMAP_API_KEY owm route_points
  = if key_configured OPENWEATHERMAP_API_KEY
    then match route_points with
         | [] => (Raise IndexError, [])
         | _ :: _ =>
             let p0 := route_at route_points 0 in
             let p1 := route_at route_points (List.length route_points / 2) in
             let p2 := route_at route_points (List.length route_points - 1) in
             (Ok (sample_hazards p0 (owm 0%nat p0) ++
                  sample_hazards p1 (owm 1%nat p1) ++
                  sample_hazards p2 (owm 2%nat p2)),
              [p0; p1; p2])
         end
    else (Ok [], []).
Proof.
  destruct (key_configured OPENWEATHERMAP_API_KEY) eqn:K.
  - destruct route_points as [|q rest].
    + unfold fetch_weather_alerts, weather_body. rewrite K.
      change (negb true) with false. cbv iota.
      unfold bind, lift. now rewrite py_index_empty.
    + now apply fetch_weather_alerts_samples.
  - unfold fetch_weather_alerts, weather_body. now rewrite K.
Qed.

Lemma hazardous_id_iff (i : Z) :
  hazardous_id i = true <-> (200 <= i < 800)%Z.
Proof.
  unfold hazardous_id. rewrite andb_true_iff, Z.leb_le, Z.ltb_lt. reflexivity.
Qed.

Lemma sample_hazards_result (p : point) (code : Z) (d : string)
    (others : list condition) (place : option string) :
  sample_hazards p (Ok (mkResponse 200 (Ok (weather_result code d others place))))
  = if hazardous_id code then [weather_record p d place] else [].
Proof.
  unfold sample_hazards, alert_if_hazardous, weather_result. simpl.
  unfold bind, lift. simpl. now destruct (hazardous_id code).
Qed.

(** C4. A weather result is marked hazardous exactly when the code of its
    primary condition (the first of the ['weather'] array) is at least 200
    and less than 800: the [if] statement appends one record, whose details
    are "Weather Alert: " followed by the provider's description, when the
    code is in that range, and nothing otherwise. So codes 199 and 800 give
    no record and codes 200 and 799 give one. A result with no condition
    gives no record either. *)
Theorem weather_classifier_bounds :
  (forall i, hazardous_id i = true <-> (200 <= i < 800)%Z) /\
  (forall p code d others place hs asked,
     alert_if_hazardous p (weather_result code d others place) (hs, asked)
     = (Ok tt,
        (hs ++ (if hazardous_id code then [weather_record p d place] else []),
         asked))) /\
  (forall p d place,
     details (weather_record p d place) = ("Weather Alert: " ++ d)%string /\
     coords (weather_record p d place) = p) /\
  (forall p d others place,
     let delivered_code code :=
       Ok (mkResponse 200 (Ok (weather_result code d others place))) in
     sample_hazards p (delivered_code 199%Z) = [] /\
     sample_hazards p (delivered_code 200%Z) = [weather_record p d place] /\
     sample_hazards p (delivered_code 799%Z) = [weather_record p d place] /\
     sample_hazards p (delivered_code 800%Z) = []) /\
  (forall p place,
     sample_hazards p (Ok (mkResponse 200 (Ok (mkWeatherData [] place)))) = []).
Proof.
  split; [exact hazardous_id_iff|]. split; [|split; [|split]].
  - intros p code d others place hs asked.
    unfold alert_if_hazardous, weather_result. simpl. unfold bind, lift. simpl.
    destruct (hazardous_id code); simpl; [reflexivity | now rewrite app_nil_r].
  - intros p d place. split; reflexivity.
  - intros p d others place delivered_code. subst delivered_code. cbv beta.
    rewrite !sample_hazards_result. repeat split; reflexivity.
  - reflexivity.
Qed.

(** C5. With a key configured and a route of [n >= 1] points, the sampler
    makes exactly three requests and no others: for the points at indices
    [0], [n / 2] (rounded down) and [n - 1], in that order. For seven
    points these are the points at indices 0, 3 and 6; for a single point
    the three requests are for that point, and nothing is raised. *)
Theorem weather_samples_three_points (route_points : list point)
    (K : key_configured OPENWEATHERMAP_API_KEY = true)
    (N : route_points <> []) :
  snd (fetch_weather_alerts OPENWEATHERMAP_API_KEY owm route_points)
  = sampled_points route_points /\
  sampled_points route_points
  = [route_at route_points 0;
     route_at route_points (List.length route_points / 2);
     route_at route_points (List.length route_points - 1)] /\
  sampled_indices 7 = [0; 3; 6]%nat /\
  (forall p0 p1 p2 p3 p4 p5 p6,
     snd (fetch_weather_alerts OPENWEATHERMAP_API_KEY owm
            [p0; p1; p2; p3; p4; p5; p6]) = [p0; p3; p6]) /\
  (forall p,
     snd (fetch_weather_alerts OPENWEATHERMAP_API_KEY owm [p]) = [p; p; p] /\
     is_ok (fst (fetch_weather_alerts OPENWEATHERMAP_API_KEY owm [p])) = true).
Proof.
  split; [|split; [|split; [|split]]].
  - now rewrite (fetch_weather_alerts_samples route_points K N).
  - reflexivity.
  - reflexivity.
  - intros. rewrite fetch_weather_alerts_samples; [reflexivity | exact K | discriminate].
  - intros p. rewrite fetch_weather_alerts_samples;
      [split; reflexivity | exact K | discriminate].
Qed.




End WeatherProperties.

(** ** The properties on a concrete request *)

Lemma distance_defined_by_evaluation (libm : math.impl) (rp : point)
    (lat lon : float) :
  is_ok (haversine libm (fst rp) (snd rp) lat lon) = true ->
  distance_defined libm rp lat lon.
Proof.
  unfold distance_defined.
  destruct (haversine libm (fst rp) (snd rp) lat lon) as [d|e];
    [intros _; now exists d | discriminate].
Defined.

Lemma at_least_50km_by_evaluation (libm : math.impl) (rp : point)
    (lat lon : float) :
  match haversine libm (fst rp) (snd rp) lat lon with
  | Ok d => 50 <=? d
  | Raise _ => false
  end = true ->
  at_least_50km libm rp lat lon.
Proof.
  unfold at_least_50km.
  destruct (haversine libm (fst rp) (snd rp) lat lon) as [d|e];
    [intros H; now exists d | discriminate].
Defined.

(** The distances of the sample request are all computed. *)
Lemma sample_distances_defined :
  distances_defined approx.libm sample.route_points sample.entries.
Proof.
  intros e lat lon rp He Hp Hr. simpl in He, Hr.
  destruct He as [<-|[<-|[<-|[]]]]; simpl in Hp; try discriminate;
    injection Hp as <- <-;
    destruct Hr as [<-|[<-|[]]];
    apply distance_defined_by_evaluation; vm_compute; reflexivity.
Defined.

(** The specification's end-to-end example: the "Shimla" advisory, then the
    feed entry next to the route, then the weather alert of the one sample
    whose request succeeded; no fire is named, so the MODIS layer. *)
Example end_to_end :
  analyze_route PyStr.ascii_lower approx.libm sample.date_today sample.api_key
    sample.owm (delivered sample.entries) sample.end_name sample.route_points
  = Ok (mkAnalysis sample.end_name sample.route_points
          (advisory_at 1 ++
           [mkHazard (31.11, 77.11) "Orange flood alert" "Near your route";
            mkHazard (31.50, 77.50) "Weather Alert: moderate rain" "Theog"])
          (modis_url sample.date_today)).
Proof. vm_compute. reflexivity. Qed.

(** The correlator on the sample feed: every distance is computed. *)
Lemma gdacs_correlation_witness :
  distances_defined approx.libm sample.route_points sample.entries /\
  fetch_and_check_gdacs_alerts approx.libm (delivered sample.entries)
    sample.route_points
  = Ok (correlateDisasterAlerts approx.libm sample.route_points sample.entries).
Proof.
  split; [exact sample_distances_defined|].
  exact (proj1 (gdacs_correlation approx.libm sample.route_points sample.entries
                  sample_distances_defined)).
Defined.

(** The far entry of the sample feed: both of its distances to the route
    are over 50 km. *)
Lemma gdacs_threshold_strict_witness :
  (forall rp, In rp sample.route_points -> at_least_50km approx.libm rp 40 80) /\
  fetch_and_check_gdacs_alerts approx.libm
    (delivered [mkEntry "Red earthquake alert" (Some (40, 80))])
    sample.route_points = Ok [].
Proof.
  assert (Far : forall rp, In rp sample.route_points ->
                           at_least_50km approx.libm rp 40 80).
  { intros rp [<-|[<-|[]]]; apply at_least_50km_by_evaluation;
      vm_compute; reflexivity. }
  split; [exact Far|].
  exact (proj1 (proj2 (gdacs_threshold_strict approx.libm 200 [] []
                         "Red earthquake alert" 40 80 sample.route_points Far))).
Defined.

(** A feed answered with status 503. *)
Lemma gdacs_failure_contained_witness :
  request_failure (A := list item) (Ok (mkResponse 503 (Ok []))) /\
  fetch_and_check_gdacs_alerts approx.libm (Ok (mkResponse 503 (Ok [])))
    sample.route_points = Ok [].
Proof.
  assert (F : request_failure (A := list item) (Ok (mkResponse 503 (Ok [])))).
  { apply http_error_status. lia. }
  split; [exact F|].
  exact (proj1 (gdacs_failure_contained approx.libm _ sample.route_points F)).
Defined.

(** The seven-point route, with a key. *)
Lemma weather_samples_three_points_witness :
  key_configured sample.api_key = true /\
  sample.route_7 <> [] /\
  snd (fetch_weather_alerts sample.api_key sample.owm sample.route_7)
  = sampled_points sample.route_7.
Proof.
  assert (K : key_configured sample.api_key = true) by reflexivity.
  assert (N : sample.route_7 <> []) by discriminate.
  split; [exact K|]. split; [exact N|].
  exact (proj1 (weather_samples_three_points sample.api_key sample.owm
                  sample.route_7 K N)).
Defined.


(** Lower-casing of ASCII letters, and no hazard at all. *)
Lemma get_satellite_url_selection_witness :
  PyStr.ascii_lower "" = "" /\
  get_satellite_url PyStr.ascii_lower sample.date_today (primary_details [])
  = modis_url sample.date_today.
Proof.
  split; [reflexivity|].
  exact (proj1 (proj2 (proj2 (proj2
    (get_satellite_url_selection PyStr.ascii_lower approx.libm sample.date_today
       sample.api_key sample.owm (delivered sample.entries) eq_refl))))).
Defined.

(** C5, as first stated, fails without a key: no point is sampled,
    whatever the route; the three requests are made only once the guard of
    line 135 is passed. *)
Lemma weather_samples_need_key :
  sample.route_7 <> [] /\
  snd (fetch_weather_alerts None sample.owm sample.route_7) = [] /\
  snd (fetch_weather_alerts None sample.owm sample.route_7)
  <> sampled_points sample.route_7.
Proof.
  split; [discriminate|]. split; [reflexivity|]. discriminate.
Qed.


(** * Further properties of the code *)

(** ** The weather sampler: what it returns and asks, in every case *)

Section WeatherFurther.
Variable OPENWEATHERMAP_API_KEY : option string.
Variable owm : nat -> point -> result (response weather_data).

(** One sample adds nothing or one record, at the sampled point. *)
Lemma sample_hazards_shape (p : point)
    (outcome : result (response weather_data)) :
  sample_hazards p outcome = [] \/
  exists d place, sample_hazards p outcome = [weather_record p d place].
Proof.
  unfold sample_hazards. destruct outcome as [resp|e]; [|now left].
  destruct (raise_for_status resp) as [[]|e]; [|now left].
  destruct (decoded resp) as [data|e]; [|now left].
  unfold alert_if_hazardous. destruct (weather data) as [|w0 rest]; [now left|].
  unfold bind, lift. destruct (dict_get (id w0)) as [i|e]; [|now left].
  destruct (hazardous_id i); [|now left].
  destruct (dict_get (description w0)) as [d|e]; [|now left].
  right. now exists d, (name data).
Qed.

Lemma sample_hazards_records (p : point)
    (outcome : result (response weather_data)) :
  (List.length (sample_hazards p outcome) <= 1)%nat /\
  Forall (fun h => coords h = p /\
                   exists d, details h = ("Weather Alert: " ++ d)%string)
         (sample_hazards p outcome).
Proof.
  destruct (sample_hazards_shape p outcome) as [E | (d & place & E)]; rewrite E.
  - split; [simpl; lia | constructor].
  - split; [simpl; lia|]. constructor; [|constructor].
    split; [reflexivity | now exists d].
Qed.

(** The sampler asks at most three times and returns at most three
    records, all weather alerts; it raises only on an empty route. *)
Lemma fetch_weather_alerts_shape (route_points : list point) :
  match fetch_weather_alerts OPENWEATHERMAP_API_KEY owm route_points with
  | (Ok hs, asked) =>
      (List.length hs <= 3)%nat /\ (List.length asked <= 3)%nat /\
      Forall (fun h => exists d, details h = ("Weather Alert: " ++ d)%string) hs
  | (Raise e, asked) =>
      e = IndexError /\ asked = [] /\ route_points = [] /\
      key_configured OPENWEATHERMAP_API_KEY = true
  end.
Proof.
  assert (One : forall p outcome,
             (List.length (sample_hazards p outcome) <= 1)%nat /\
             Forall (fun h => exists d, details h = ("Weather Alert: " ++ d)%string)
                    (sample_hazards p outcome)).
  { intros p outcome. destruct (sample_hazards_records p outcome) as [L F].
    split; [exact L|]. eapply Forall_impl; [|exact F]. now intros h [_ D]. }
  rewrite fetch_weather_alerts_eq.
  destruct (key_configured OPENWEATHERMAP_API_KEY);
    [|repeat split; [simpl; lia | simpl; lia | constructor]].
  destruct route_points as [|q rest]; [repeat split; reflexivity|].
  cbv zeta. set (route_points := q :: rest).
  destruct (One (route_at route_points 0)
              (owm 0%nat (route_at route_points 0))) as [L0 F0].
  destruct (One (route_at route_points (List.length route_points / 2))
              (owm 1%nat (route_at route_points (List.length route_points / 2))))
    as [L1 F1].
  destruct (One (route_at route_points (List.length route_points - 1))
              (owm 2%nat (route_at route_points (List.length route_points - 1))))
    as [L2 F2].
  split; [rewrite !length_app; lia|]. split; [simpl; lia|].
  rewrite !Forall_app. now repeat split.
Qed.

(** X1. Whatever the key, the provider and the route: the function either
    returns at most three records, never more than it made requests, each
    at a point it asked for and with details that start with
    "Weather Alert: "; or it raises, and then the exception is
    [IndexError], the route is empty, a key is configured and no request
    was made. *)
Theorem weather_output_invariant (route_points : list point) :
  match fetch_weather_alerts OPENWEATHERMAP_API_KEY owm route_points with
  | (Ok hs, asked) =>
      (List.length hs <= List.length asked)%nat /\
      (List.length asked <= 3)%nat /\
      Forall (fun h => In (coords h) asked /\
                       exists d, details h = ("Weather Alert: " ++ d)%string) hs
  | (Raise e, asked) =>
      e = IndexError /\ asked = [] /\ route_points = [] /\
      key_configured OPENWEATHERMAP_API_KEY = true
  end.
Proof.
  rewrite fetch_weather_alerts_eq.
  destruct (key_configured OPENWEATHERMAP_API_KEY).
  - destruct route_points as [|q rest]; [repeat split; reflexivity|].
    cbv zeta. set (route_points := q :: rest).
    set (p0 := route_at route_points 0).
    set (p1 := route_at route_points (List.length route_points / 2)).
    set (p2 := route_at route_points (List.length route_points - 1)).
    destruct (sample_hazards_records p0 (owm 0%nat p0)) as [L0 F0].
    destruct (sample_hazards_records p1 (owm 1%nat p1)) as [L1 F1].
    destruct (sample_hazards_records p2 (owm 2%nat p2)) as [L2 F2].
    split; [rewrite !length_app; simpl; lia|]. split; [simpl; lia|].
    rewrite !Forall_app. repeat split.
    + eapply Forall_impl; [|exact F0]. intros h [-> D]. split; [now left | exact D].
    + eapply Forall_impl; [|exact F1]. intros h [-> D].
      split; [right; now left | exact D].
    + eapply Forall_impl; [|exact F2]. intros h [-> D].
      split; [right; right; now left | exact D].
  - repeat split; [simpl; lia | simpl; lia | constructor].
Qed.

(** X2. The three positions, for a route of [n >= 1] points with a key: they
    lie within the route and in route order; the middle one is the last
    one exactly when the route has one or two points, and the first one
    exactly when it has one point; so the three requests are for three
    different positions exactly when the route has three points or more. *)
Theorem weather_sample_positions (route_points : list point)
    (K : key_configured OPENWEATHERMAP_API_KEY = true)
    (N : route_points <> []) :
  let n := List.length route_points in
  snd (fetch_weather_alerts OPENWEATHERMAP_API_KEY owm route_points)
  = map (route_at route_points) (sampled_indices n) /\
  Forall (fun i => (i < n)%nat) (sampled_indices n) /\
  (0 <= n / 2 <= n - 1)%nat /\
  ((n / 2 = n - 1)%nat <-> (n <= 2)%nat) /\
  ((n / 2 = 0)%nat <-> (n = 1)%nat) /\
  (NoDup (sampled_indices n) <-> (3 <= n)%nat).
Proof.
  intros n.
  assert (L : (1 <= n)%nat) by (subst n; destruct route_points; simpl; [easy | lia]).
  assert (D : (n = 2 * (n / 2) + n mod 2)%nat) by (apply Nat.div_mod_eq).
  assert (M : (n mod 2 < 2)%nat) by (apply Nat.mod_upper_bound; lia).
  split; [now rewrite (fetch_weather_alerts_samples _ _ _ K N)|].
  clearbody n.
  split; [unfold sampled_indices; repeat constructor; lia|].
  split; [lia|]. split; [lia|]. split; [lia|].
  unfold sampled_indices. split.
  - intros H. inversion H as [|? ? H1 H2]; subst. inversion H2 as [|? ? H3 H4]; subst.
    cbn [In] in H1, H3.
    destruct (Nat.eq_dec (n / 2) (n - 1)) as [E|E]; [elim H3; left; now symmetry | lia].
  - intros H. constructor; [cbn [In]; intros [?|[?|[]]]; lia|].
    constructor; [cbn [In]; intros [?|[]]; lia|].
    constructor; [cbn [In]; tauto | constructor].
Qed.

(** X3. No de-duplication: on a route of one or two points the last point is
    asked twice, and a provider that answers alike whenever it is asked
    about a point has its hazard for that point reported twice. *)
Theorem weather_short_route_repeats (route_points : list point)
    (answer : point -> result (response weather_data))
    (K : key_configured OPENWEATHERMAP_API_KEY = true)
    (N : route_points <> [])
    (S : (List.length route_points <= 2)%nat) :
  let first := route_at route_points 0 in
  let last := route_at route_points (List.length route_points - 1) in
  fetch_weather_alerts OPENWEATHERMAP_API_KEY (fun _ => answer) route_points
  = (Ok (sample_hazards first (answer first) ++
         sample_hazards last (answer last) ++
         sample_hazards last (answer last)),
     [first; last; last]).
Proof.
  intros first last. rewrite (fetch_weather_alerts_samples _ _ _ K N). cbv zeta.
  assert (L : (1 <= List.length route_points)%nat)
    by (destruct route_points; simpl; [easy | lia]).
  assert (E : (List.length route_points / 2 = List.length route_points - 1)%nat).
  { destruct (Nat.eq_dec (List.length route_points) 1) as [->|]; [reflexivity|].
    replace (List.length route_points) with 2%nat by lia. reflexivity. }
  rewrite E. reflexivity.
Qed.

End WeatherFurther.

(** X4. A response whose status is not a client or server error status is
    read like one with status 200, by the weather sampler and by the
    disaster correlator alike: only 4xx and 5xx count as failures. *)
Theorem only_error_statuses_fail (libm : math.impl) (status : Z)
    (body : result weather_data) (feed : result (list item))
    (p : point) (route_points : list point)
    (S : ~ (400 <= status < 600)%Z) :
  sample_hazards p (Ok (mkResponse status body))
  = sample_hazards p (Ok (mkResponse 200 body)) /\
  fetch_and_check_gdacs_alerts libm (Ok (mkResponse status feed)) route_points
  = fetch_and_check_gdacs_alerts libm (Ok (mkResponse 200 feed)) route_points.
Proof.
  assert (R : forall A (b : result A),
             raise_for_status (mkResponse status b) = Ok tt).
  { intros A b. unfold raise_for_status. simpl.
    destruct ((400 <=? status)%Z && (status <? 600)%Z) eqn:E; [|reflexivity].
    apply andb_true_iff in E as [E1 E2].
    apply Z.leb_le in E1. apply Z.ltb_lt in E2. lia. }
  split.
  - unfold sample_hazards. now rewrite R.
  - rewrite !fetch_gdacs_eq. unfold gdacs_try, bind, lift. now rewrite R.
Qed.


(** ** The disaster correlator: what it returns in every case *)

Lemma subsequence_refl {A} (l : list A) : subsequence l l.
Proof. induction l; now constructor. Qed.

Lemma subsequence_app {A} (a1 a2 b1 b2 : list A) :
  subsequence a1 a2 -> subsequence b1 b2 -> subsequence (a1 ++ b1) (a2 ++ b2).
Proof.
  intros Ha Hb. induction Ha; simpl.
  - induction l; simpl; [exact Hb | now constructor].
  - now constructor.
  - now constructor.
Qed.

Lemma subsequence_length {A} (l1 l2 : list A) :
  subsequence l1 l2 -> (List.length l1 <= List.length l2)%nat.
Proof. induction 1; simpl; lia. Qed.

Lemma subsequence_In {A} (l1 l2 : list A) (x : A) :
  subsequence l1 l2 -> In x l1 -> In x l2.
Proof.
  induction 1 as [l | y l1 l2 H IH | y l1 l2 H IH]; simpl.
  - intros [].
  - intros [->|I]; [now left | right; auto].
  - intros I. right. auto.
Qed.

Section GdacsFurther.
Variable libm : math.impl.

(** The scan of the route leaves the store as it was or appends the record
    of the feed point, whether it ends normally or by an exception. *)
Lemma scan_route_appends (route_points : list point) (lat lon : float)
    (t : string) (s : list hazard) :
  snd (scan_route libm route_points lat lon t s) = s \/
  snd (scan_route libm route_points lat lon t s)
  = s ++ [mkHazard (lat, lon) t "Near your route"].
Proof.
  induction route_points as [|rp rest IH]; simpl; [now left|].
  unfold bind, lift.
  destruct (haversine libm (fst rp) (snd rp) lat lon) as [d|e]; [|now left].
  destruct (within_50 d); [now right | exact IH].
Qed.

Lemma check_item_appends (route_points : list point) (it : item)
    (s : list hazard) :
  exists added,
    snd (check_item libm route_points it s) = s ++ added /\
    subsequence added (record_of_item it) /\
    (route_points = [] -> added = []).
Proof.
  unfold check_item, record_of_item, bind, lift.
  destruct (title it) as [t|];
    [|exists []; rewrite app_nil_r; repeat split; constructor].
  destruct (georss_point it) as [[[lat lon]|e]|]; simpl;
    try (exists []; rewrite app_nil_r; repeat split; constructor).
  destruct (scan_route_appends route_points lat lon t s) as [E|E].
  - exists []. rewrite app_nil_r. repeat split; [exact E | constructor].
  - exists [mkHazard (lat, lon) t "Near your route"].
    split; [exact E|]. split; [apply subsequence_refl|].
    intros ->. simpl in E. apply (f_equal (@List.length hazard)) in E.
    rewrite length_app in E. simpl in E. lia.
Qed.

Lemma for_each_items_appends (route_points : list point) (items : list item)
    (s : list hazard) :
  exists added,
    snd (for_each items (check_item libm route_points) s) = s ++ added /\
    subsequence added (flat_map record_of_item items) /\
    (route_points = [] -> added = []).
Proof.
  revert s. induction items as [|it items IH]; intros s; simpl.
  - exists []. rewrite app_nil_r. repeat split; constructor.
  - destruct (check_item_appends route_points it s) as (a1 & E1 & S1 & Z1).
    unfold bind.
    destruct (check_item libm route_points it s) as [[[]|e] s'] eqn:C;
      simpl in E1; subst s'.
    + destruct (IH (s ++ a1)) as (a2 & E2 & S2 & Z2).
      exists (a1 ++ a2). rewrite E2, app_assoc.
      split; [reflexivity|]. split; [now apply subsequence_app|].
      intros R. now rewrite (Z1 R), (Z2 R).
    + exists a1. simpl. split; [reflexivity|]. split; [|exact Z1].
      rewrite <- (app_nil_r a1). apply subsequence_app; [exact S1 | constructor].
Qed.

(** The correlator always returns, and what it returns is drawn from the
    records of the items, in their order. *)
Lemma fetch_gdacs_subsequence (http_get : result (response (list item)))
    (route_points : list point) :
  exists hs,
    fetch_and_check_gdacs_alerts libm http_get route_points = Ok hs /\
    (route_points = [] -> hs = []) /\
    match http_get with
    | Ok {| status_code := _; decoded := Ok items |} =>
        subsequence hs (flat_map record_of_item items)
    | _ => hs = []
    end.
Proof.
  rewrite fetch_gdacs_eq. eexists. split; [reflexivity|].
  unfold gdacs_try, bind, lift.
  destruct http_get as [[status [items|e]]|e]; simpl;
    try (destruct (raise_for_status _) as [[]|e']; simpl); try easy.
  - destruct (for_each_items_appends route_points items []) as (a & E & S & Z).
    rewrite E. simpl. split; [exact Z | exact S].
  - split; [reflexivity | constructor].
Qed.

Lemma fetch_gdacs_named (http_get : result (response (list item)))
    (route_points : list point) (hs : list hazard) :
  fetch_and_check_gdacs_alerts libm http_get route_points = Ok hs ->
  Forall (fun h => location_name h = "Near your route") hs.
Proof.
  intros E.
  destruct (fetch_gdacs_subsequence http_get route_points) as (hs' & E' & _ & S).
  rewrite E in E'. injection E' as <-.
  apply Forall_forall.
  destruct http_get as [[status [items|e]]|e]; try (subst hs; easy).
  intros h Hh. apply (subsequence_In _ _ _ S) in Hh.
  apply in_flat_map in Hh as (it & _ & Hh). unfold record_of_item in Hh.
  destruct (title it); [|easy].
  destruct (georss_point it) as [[q|]|]; try easy.
  destruct Hh as [<-|[]]. reflexivity.
Qed.

(** X6. Whatever the request gives and whatever the route, the correlator
    returns a list: the empty one if the feed was not read or the route is
    empty, and otherwise some of the records its items can give (those
    with a title and a point that parses), in the order of the feed, at
    most one for each item; every record is named "Near your route". *)
Theorem gdacs_output_invariant (http_get : result (response (list item)))
    (route_points : list point) :
  exists hs,
    fetch_and_check_gdacs_alerts libm http_get route_points = Ok hs /\
    Forall (fun h => location_name h = "Near your route") hs /\
    fetch_and_check_gdacs_alerts libm http_get [] = Ok [] /\
    match http_get with
    | Ok {| status_code := _; decoded := Ok items |} =>
        subsequence hs (flat_map record_of_item items) /\
        (List.length hs <= List.length items)%nat
    | _ => hs = []
    end.
Proof.
  destruct (fetch_gdacs_subsequence http_get route_points) as (hs & E & _ & S).
  destruct (fetch_gdacs_subsequence http_get []) as (hs0 & E0 & Z0 & _).
  exists hs. split; [exact E|].
  split; [exact (fetch_gdacs_named _ _ _ E)|].
  split; [now rewrite E0, (Z0 eq_refl)|].
  destruct http_get as [[status [items|e]]|e]; try exact S.
  split; [exact S|].
  apply subsequence_length in S. rewrite S. clear.
  induction items as [|it items IH]; simpl; [lia|].
  rewrite length_app. unfold record_of_item at 1.
  destruct (title it); [destruct (georss_point it) as [[q|]|]|]; simpl; lia.
Qed.

Lemma check_item_unreadable (route_points : list point) (it : item)
    (s : list hazard) :
  unreadable it ->
  exists e, check_item libm route_points it s = (Raise e, s).
Proof.
  unfold check_item, bind, lift. intros [T | [e P]].
  - rewrite T. now exists AttributeError.
  - destruct (title it) as [t|]; [|now exists AttributeError].
    rewrite P. now exists e.
Qed.

(** The scan stops before the first route point that raises, when no
    earlier route point is near. *)
Lemma scan_route_error (before after : list point) (rp : point)
    (lat lon : float) (t : string) (e : exn) (s : list hazard) :
  (forall rp', In rp' before -> distance_defined libm rp' lat lon) ->
  existsb (near libm lat lon) before = false ->
  haversine libm (fst rp) (snd rp) lat lon = Raise e ->
  scan_route libm (before ++ rp :: after) lat lon t s = (Raise e, s).
Proof.
  induction before as [|rp0 rest IH]; intros D F H; simpl in *.
  - unfold bind, lift. now rewrite H.
  - apply orb_false_iff in F as [F1 F2].
    destruct (D rp0 (or_introl eq_refl)) as [d0 E0]. unfold near in F1.
    unfold bind, lift. rewrite E0 in *. unfold within_50. rewrite F1.
    apply IH; [intros rp' I; apply D; now right | exact F2 | exact H].
Qed.

(** X7. An item the loop cannot finish ends the scan of the whole feed: the
    correlator returns what the items before it gave, and the items after
    it are never read, near the route or not. The item may be unreadable
    (no title, or a point that does not parse), or be a readable one whose
    distance to some route point cannot be computed while no earlier route
    point is within 50 km. *)
Theorem gdacs_scan_ends_at_failing_item (status : Z)
    (pre post : list item) (bad : item) (route_points : list point)
    (B : unreadable bad \/
         exists t lat lon before rp after e,
           title bad = Some t /\ georss_point bad = Some (Ok (lat, lon)) /\
           route_points = before ++ rp :: after /\
           (forall rp', In rp' before -> distance_defined libm rp' lat lon) /\
           existsb (near libm lat lon) before = false /\
           haversine libm (fst rp) (snd rp) lat lon = Raise e) :
  fetch_and_check_gdacs_alerts libm
    (Ok (mkResponse status (Ok (pre ++ bad :: post)))) route_points
  = fetch_and_check_gdacs_alerts libm
      (Ok (mkResponse status (Ok pre))) route_points.
Proof.
  assert (C : forall s, exists e,
             check_item libm route_points bad s = (Raise e, s)).
  { intros s. destruct B as [U | (t & lat & lon & before & rp & after & e &
                                  T & P & R & D & F & H)].
    - now apply check_item_unreadable.
    - exists e. unfold check_item, bind, lift. rewrite T, P, R. simpl.
      now apply scan_route_error. }
  rewrite !fetch_gdacs_eq. f_equal. unfold gdacs_try, bind, lift.
  unfold raise_for_status. simpl.
  destruct ((400 <=? status)%Z && (status <? 600)%Z); simpl; [reflexivity|].
  rewrite for_each_app. unfold bind.
  destruct (for_each pre (check_item libm route_points) [])
    as [[[]|e] s]; [|reflexivity].
  cbn [for_each]. unfold bind. destruct (C s) as [e ->]. reflexivity.
Qed.

End GdacsFurther.

(** An alert at the antipode of the only route point, between two alerts on
    the route: the second of them is never read. *)
Lemma gdacs_scan_ends_at_failing_item_witness :
  fetch_and_check_gdacs_alerts cpython.libm
    (Ok (mkResponse 200
           (Ok ([item_of_entry sample.alert_on_route] ++
                item_of_entry sample.antipode_alert ::
                [item_of_entry sample.alert_on_route]))))
    sample.route_at_8_0
  = fetch_and_check_gdacs_alerts cpython.libm
      (Ok (mkResponse 200 (Ok [item_of_entry sample.alert_on_route])))
      sample.route_at_8_0.
Proof.
  apply gdacs_scan_ends_at_failing_item. right.
  exists "Red earthquake alert", (-8)%float, 180%float, [], (8, 0)%float, [],
    ValueError.
  repeat split; try reflexivity. intros rp' [].
Defined.

(** ** The distance from a point to itself *)

(** A finite float is a zero or a finite number of the specification. *)
Lemma finite_cases (x : float) :
  is_finite x = true ->
  (exists s, Prim2SF x = SpecFloat.S754_zero s) \/
  (exists s m e, Prim2SF x = SpecFloat.S754_finite s m e).
Proof.
  unfold is_finite, is_nan, is_infinity. rewrite !eqb_spec, abs_spec.
  change (Prim2SF infinity) with (SpecFloat.S754_infinity false).
  destruct (Prim2SF x) as [s|s| |s m e].
  - intros _. left. now exists s.
  - now destruct s.
  - discriminate.
  - intros _. right. now exists s, m, e.
Qed.

(** [x - x] is [+0] for a finite [x]. *)
Lemma sub_diag_finite (x : float) : is_finite x = true -> x - x = 0.
Proof.
  intros F. apply Prim2SF_inj. rewrite sub_spec.
  change (Prim2SF 0) with (SpecFloat.S754_zero false).
  destruct (finite_cases x F) as [[s ->] | (s & m & e & ->)].
  - now destruct s.
  - unfold SF64sub, SpecFloat.SFsub. cbv zeta. now rewrite Z.sub_diag.
Qed.

(** [0 + z * 0] is [+0] for a finite [z]. *)
Lemma zero_plus_finite_times_zero (z : float) :
  is_finite z = true -> 0 + z * 0 = 0.
Proof.
  intros F. apply Prim2SF_inj. rewrite add_spec, mul_spec.
  change (Prim2SF 0) with (SpecFloat.S754_zero false).
  destruct (finite_cases z F) as [[s ->] | (s & m & e & ->)];
    now destruct s.
Qed.

Section SamePoint.
Variable libm : math.impl.

(** X9. For a point with finite coordinates, with a math module that is exact
    at zero and one and computes the cosine of the latitude, the distance
    from the point to itself is exactly 0: every term of [a] is a zero. So
    an alert at a vertex of the route is always within 50 km of it. *)
Theorem haversine_same_point (lat lon : float)
    (Flat : is_finite lat = true) (Flon : is_finite lon = true)
    (Z : exact_at_zero libm) (C : cosine_defined libm lat) :
  haversine libm lat lon lat lon = Ok 0 /\
  strictly_within_50km libm (lat, lon) lat lon.
Proof.
  destruct Z as (R0 & S0 & P0 & Q0 & Q1 & A0).
  destruct C as (r & c & Rl & Cr & Fc).
  assert (H : haversine libm lat lon lat lon = Ok 0).
  { unfold haversine, haversine_a.
    rewrite (sub_diag_finite lat Flat), (sub_diag_finite lon Flon), R0.
    cbn [rbind]. change (0 / 2) with 0. rewrite S0. cbn [rbind].
    rewrite P0. cbn [rbind]. rewrite Rl. cbn [rbind]. rewrite Cr. cbn [rbind].
    rewrite (zero_plus_finite_times_zero _ Fc), Q0. cbn [rbind].
    change (1 - 0) with 1. rewrite Q1. cbn [rbind]. rewrite A0. reflexivity. }
  split; [exact H|]. exists 0. split; [exact H | reflexivity].
Qed.

End SamePoint.

(** The first point of the sample route, with the series. *)
Lemma haversine_same_point_witness :
  haversine approx.libm 31.10 77.10 31.10 77.10 = Ok 0 /\
  strictly_within_50km approx.libm (31.10, 77.10) 31.10 77.10.
Proof.
  apply haversine_same_point; try reflexivity.
  - repeat split; reflexivity.
  - eexists _, _. repeat split; vm_compute; reflexivity.
Defined.

(** A response with status 204. *)
Lemma only_error_statuses_fail_witness :
  sample_hazards (31.10, 77.10)
    (Ok (mkResponse 204 (Ok (weather_result 501 "moderate rain" [] None))))
  = sample_hazards (31.10, 77.10)
      (Ok (mkResponse 200 (Ok (weather_result 501 "moderate rain" [] None)))).
Proof.
  apply (proj1 (only_error_statuses_fail approx.libm 204
                  (Ok (weather_result 501 "moderate rain" [] None))
                  (Ok []) (31.10, 77.10) [] ltac:(lia))).
Defined.

(** ** The registry and the first-match rule *)

(** X10. No entry of the registry is shadowed by an earlier one: asked for a
    registered key itself, with ASCII lower-casing (the keys are ASCII
    strings), the matcher returns the advisory registered under that key,
    for each of the thirteen entries; and no key is registered twice. *)
Theorem registry_entries_all_reachable :
  Forall (fun entry =>
            fetch_local_advisories PyStr.ascii_lower (fst entry) = [snd entry])
         MOCK_LOCAL_ADVISORIES /\
  NoDup (map fst MOCK_LOCAL_ADVISORIES).
Proof.
  split.
  - repeat (constructor; [vm_compute; reflexivity|]). constructor.
  - repeat (constructor; [simpl; intuition discriminate|]). constructor.
Qed.

(** ** The imagery selector reads one word *)

Lemma wildfire_contains_fire (s : string) :
  PyStr.contains "wildfire" s = true -> PyStr.contains "fire" s = true.
Proof.
  rewrite !contains_iff. intros (before & after & ->).
  exists (before ++ "wild")%string, after.
  now rewrite append_assoc.
Qed.

(** X11. The test for "wildfire" never decides: a string that contains
    "wildfire" contains "fire", so the selector returns the thermal layer
    exactly when its argument is a non-empty string whose lower-casing
    contains "fire", wherever in a word it stands. *)
Theorem get_satellite_url_reads_fire (lower : string -> string)
    (date_today : string) (hazard_type : option string) :
  get_satellite_url lower date_today hazard_type
  = if match hazard_type with
       | Some h => PyStr.truthy h && PyStr.contains "fire" (lower h)
       | None => false
       end
    then viirs_url date_today else modis_url date_today.
Proof.
  unfold get_satellite_url, mentions_fire. destruct hazard_type as [h|]; [|reflexivity].
  destruct (PyStr.contains "fire" (lower h)) eqn:F; [reflexivity|].
  destruct (PyStr.contains "wildfire" (lower h)) eqn:W; [|reflexivity].
  apply wildfire_contains_fire in W. congruence.
Qed.

(** ** The view: from the request to the answer *)

Lemma py_index_out_of_range {A} (l : list A) (i : nat) :
  (List.length l <= i)%nat -> py_index l (Z.of_nat i) = Raise IndexError.
Proof.
  intros H. unfold py_index.
  replace (Z.of_nat i <? 0)%Z with false by (symmetry; apply Z.ltb_ge; lia).
  replace ((0 <=? Z.of_nat i) && (Z.of_nat i <? Z.of_nat (List.length l)))%Z
    with false; [reflexivity|].
  symmetry. apply andb_false_iff. right. apply Z.ltb_ge. lia.
Qed.

Lemma swap_positions_eq (positions : list (list float)) :
  swap_positions positions
  = if forallb has_lon_lat positions
    then Ok (map latlon positions) else Raise IndexError.
Proof.
  induction positions as [|p rest IH]; simpl; [reflexivity|].
  unfold has_lon_lat at 1. destruct (2 <=? List.length p)%nat eqn:L.
  - apply Nat.leb_le in L.
    change 1%Z with (Z.of_nat 1). change 0%Z with (Z.of_nat 0).
    rewrite (py_index_nat p 1 0%float), (py_index_nat p 0 0%float) by lia.
    simpl. rewrite IH. now destruct (forallb has_lon_lat rest).
  - apply Nat.leb_gt in L. change 1%Z with (Z.of_nat 1).
    now rewrite (py_index_out_of_range p 1) by lia.
Qed.

(** X12. The conversion of the route: every position needs two numbers, or the
    comprehension raises [IndexError]; when they all have them, the route
    has one point for each position, in the same order, with the second
    number (the latitude) first and the first (the longitude) second, and
    any further number (an elevation) dropped. *)
Theorem swap_positions_spec (positions : list (list float)) :
  swap_positions positions
  = (if forallb has_lon_lat positions
     then Ok (map latlon positions) else Raise IndexError) /\
  (forall route_points, swap_positions positions = Ok route_points ->
     List.length route_points = List.length positions) /\
  (forall lon lat more rest,
     swap_positions ((lon :: lat :: more) :: rest)
     = rmap (cons (lat, lon)) (swap_positions rest)).
Proof.
  pose proof (swap_positions_eq positions) as E.
  split; [exact E|]. split.
  - intros route_points H. rewrite E in H.
    destruct (forallb has_lon_lat positions); [|discriminate].
    injection H as <-. apply length_map.
  - intros lon lat more rest. cbn [swap_positions].
    change 1%Z with (Z.of_nat 1). change 0%Z with (Z.of_nat 0).
    rewrite (py_index_nat _ 1 0%float), (py_index_nat _ 0 0%float)
      by (simpl; lia).
    simpl. now destruct (swap_positions rest).
Qed.

Section ViewProperties.
Variable lower : string -> string.
Variable libm : math.impl.
Variable date_today : string.
Variable OPENWEATHERMAP_API_KEY : option string.
Variable owm : nat -> point -> result (response weather_data).
Variable gdacs_get : result (response (list item)).
Variable geocoder : string -> result (option location).
Variable osrm : string -> result (response osrm_data).
Variable py_float : string -> result float.
Variable exn_message : exn -> string.
Variable float_text : float -> string.

Local Abbreviation view :=
  (run_view lower libm date_today OPENWEATHERMAP_API_KEY owm gdacs_get
     geocoder osrm py_float exn_message float_text).

Lemma truthy_get_or_empty (v : option string) :
  PyStr.truthy (get_or_empty v) = given v.
Proof. now destruct v. Qed.

(** The geocoding stage with its handler: it never raises, asks the
    geocoder at most twice, and an answer it returns is an error with
    status 400, 404 or 500. *)
Lemma geocoding_stage (args : request_args) (log : list call) :
  exists r queries,
    try_except (resolve_places geocoder py_float args)
      (fun e => ret (inl (ErrorAnswer
                            ("Geocoding error: " ++ exn_message e)%string 500)))
      log
    = (Ok r, log ++ map Geocode queries) /\
    (List.length queries <= 2)%nat /\
    match r with
    | inl (ErrorAnswer _ status) => In status [400; 404; 500]%Z
    | inl (RouteAnswer _ _) => False
    | inr _ => True
    end.
Proof.
  unfold try_except, resolve_places, resolve_end, geocode, bind, lift, ret.
  destruct (PyStr.truthy (get_or_empty (arg_start args))).
  - destruct (geocoder (get_or_empty (arg_start args))) as [[l|]|e].
    + destruct (geocoder (get_or_empty (arg_end args))) as [[l'|]|e].
      * eexists _, [_; _]. rewrite <- app_assoc. simpl. repeat split. lia.
      * eexists _, [_; _]. rewrite <- app_assoc. simpl.
        repeat split; [lia | tauto].
      * eexists _, [_; _]. rewrite <- app_assoc. simpl.
        repeat split; [lia | tauto].
    + eexists _, [_]. simpl. repeat split; [lia | tauto].
    + eexists _, [_]. simpl. repeat split; [lia | tauto].
  - destruct (given (arg_start_lat args) && given (arg_start_lon args)).
    + destruct (py_float (get_or_empty (arg_start_lon args))) as [lon|e].
      * destruct (py_float (get_or_empty (arg_start_lat args))) as [lat|e].
        -- destruct (geocoder (get_or_empty (arg_end args))) as [[l'|]|e].
           ++ eexists _, [_]. simpl. repeat split. lia.
           ++ eexists _, [_]. simpl. repeat split; [lia | tauto].
           ++ eexists _, [_]. simpl. repeat split; [lia | tauto].
        -- eexists _, []. rewrite app_nil_r. simpl. repeat split; [lia | tauto].
      * eexists _, []. rewrite app_nil_r. simpl. repeat split; [lia | tauto].
    + eexists _, []. rewrite app_nil_r. simpl. repeat split; [lia | tauto].
Qed.

(** The routing stage with its handler: one request, and either the
    decoded document or the error answer. *)
Lemma routing_stage (url : string) (log : list call) :
  fetch_route osrm url log
  = (Ok (match osrm url with
         | Ok resp =>
             match raise_for_status resp, decoded resp with
             | Ok _, Ok data => inr data
             | _, _ => inl (ErrorAnswer
                              "Could not fetch route from routing service." 500)
             end
         | Raise _ => inl (ErrorAnswer
                             "Could not fetch route from routing service." 500)
         end),
     log ++ [Route url]).
Proof.
  unfold fetch_route, try_except, route_request, bind, lift, ret.
  destruct (osrm url) as [resp|e]; [|reflexivity].
  destruct (raise_for_status resp) as [[]|e]; [|reflexivity].
  now destruct (decoded resp).
Qed.

Lemma calls_of_app (kind : call -> bool) (l1 l2 : list call) :
  calls_of kind (l1 ++ l2) = (calls_of kind l1 + calls_of kind l2)%nat.
Proof. unfold calls_of. now rewrite filter_app, length_app. Qed.

Lemma calls_of_cons (kind : call -> bool) (c : call) (l : list call) :
  calls_of kind (c :: l) = ((if kind c then 1 else 0) + calls_of kind l)%nat.
Proof. unfold calls_of. simpl. now destruct (kind c). Qed.

Lemma calls_of_map {A} (kind : call -> bool) (make : A -> call) (b : bool)
    (l : list A) :
  (forall x, kind (make x) = b) ->
  calls_of kind (map make l) = if b then List.length l else 0%nat.
Proof.
  intros H. unfold calls_of. induction l as [|x l IH]; simpl.
  - now destruct b.
  - rewrite H. destruct b; simpl; now rewrite IH.
Qed.

(** The four ways the view ends, with the calls made in each. *)
Lemma view_cases (args : request_args) :
  exists queries, (List.length queries <= 2)%nat /\
    ((exists m status,
        In status [400; 404; 500]%Z /\
        view args = (Ok (ErrorAnswer m status), map Geocode queries)) \/
     (exists url m status,
        In status [404; 500]%Z /\
        view args
        = (Ok (ErrorAnswer m status), map Geocode queries ++ [Route url])) \/
     (exists url e,
        view args = (Raise e, map Geocode queries ++ [Route url])) \/
     (exists url r points,
        (List.length points <= 3)%nat /\
        ((exists e, r = Raise e) \/ exists s a, r = Ok (RouteAnswer s a)) /\
        view args
        = (r, map Geocode queries ++ [Route url] ++ Feed :: map Weather points))).
Proof.
  remember (view args) as v eqn:V.
  unfold run_view, analyze_route_view in V. unfold bind at 1 in V.
  destruct (geocoding_stage args []) as (r & queries & G & L & R).
  rewrite G in V. simpl app in V.
  exists queries. split; [exact L|].
  destruct r as [[m status|s a]|[[[start_coords start_name] end_coords] end_name]];
    [left; now exists m, status | easy |].
  right. unfold route_and_report in V.
  unfold bind at 1 in V. rewrite routing_stage in V.
  set (url := osrm_url float_text start_coords end_coords) in V.
  destruct (osrm url) as [resp|e];
    [|left; exists url; do 2 eexists; split; [|exact V]; simpl; tauto].
  destruct (raise_for_status resp) as [[]|e];
    [|left; exists url; do 2 eexists; split; [|exact V]; simpl; tauto].
  destruct (decoded resp) as [data|e];
    [|left; exists url; do 2 eexists; split; [|exact V]; simpl; tauto].
  destruct (routes data) as [[|first_route more]|];
    try (left; exists url; do 2 eexists; split; [|exact V]; simpl; tauto).
  right. unfold bind at 1, lift at 1 in V.
  destruct (dict_get (coordinates first_route)) as [positions|e] eqn:D.
  2:{ left. exists url, e. exact V. }
  unfold bind at 1, lift at 1 in V.
  destruct (swap_positions positions) as [route_points|e] eqn:S.
  2:{ left. exists url, e. exact V. }
  right. unfold report in V. rewrite <- app_assoc in V.
  pose proof (fetch_weather_alerts_shape OPENWEATHERMAP_API_KEY owm route_points) as W.
  exists url. eexists.
  exists (snd (fetch_weather_alerts OPENWEATHERMAP_API_KEY owm route_points)).
  split; [|split; [|exact V]].
  - destruct (fetch_weather_alerts OPENWEATHERMAP_API_KEY owm route_points)
      as [[w|e] asked]; simpl; [tauto|]. destruct W as (_ & -> & _). simpl. lia.
  - destruct (analyze_route lower libm date_today OPENWEATHERMAP_API_KEY owm
                gdacs_get end_name route_points) as [a|e] eqn:A; simpl.
    + right. now exists start_name, a.
    + left. now exists e.
Qed.

(** X14. Whatever the request and whatever the collaborators answer:
    - when the view returns an error answer, its status is 400, 404 or 500
      and it has requested neither the feed nor the weather;
    - when it returns a route answer, it has made exactly one routing
      request and one feed request;
    - an exception leaves the view only after the routing service was
      requested: whatever is raised before is turned into an answer;
    - the calls come in the order geocoder, routing service, feed, weather,
      at most two, one, one and three of them.
    Which exceptions leave the view is not stated: it depends on the shape
    of the routing document, and [osrm_data] holds the documents of the
    expected shape only. *)
Theorem view_outcomes (args : request_args) :
  match fst (view args) with
  | Ok (ErrorAnswer _ status) =>
      In status [400; 404; 500]%Z /\
      calls_of is_feed (snd (view args)) = 0%nat /\
      calls_of is_weather (snd (view args)) = 0%nat
  | Ok (RouteAnswer _ _) =>
      calls_of is_route (snd (view args)) = 1%nat /\
      calls_of is_feed (snd (view args)) = 1%nat
  | Raise _ => calls_of is_route (snd (view args)) = 1%nat
  end /\
  exists queries urls feeds points,
    snd (view args)
    = map Geocode queries ++ map Route urls ++ feeds ++ map Weather points /\
    (List.length queries <= 2)%nat /\ (List.length urls <= 1)%nat /\
    (feeds = [] \/ feeds = [Feed]) /\ (List.length points <= 3)%nat.
Proof.
  assert (G : forall k l, (forall q, k (Geocode q) = false) ->
                          calls_of k (map Geocode l) = 0%nat)
    by (intros k l H; now rewrite (calls_of_map k Geocode false)).
  assert (Wt : forall k l, (forall q, k (Weather q) = false) ->
                           calls_of k (map Weather l) = 0%nat)
    by (intros k l H; now rewrite (calls_of_map k Weather false)).
  destruct (view_cases args) as (queries & L & C).
  destruct C as [(m & st & I & ->) |
                 [(url & m & st & I & ->) |
                  [(url & e & ->) | (url & r & points & P & R & ->)]]];
    cbn [fst snd].
  - split.
    + split; [exact I|]. split; now apply G.
    + exists queries, [], [], []. simpl. rewrite !app_nil_r.
      repeat split; simpl; try lia. now left.
  - split.
    + split; [simpl in *; tauto|].
      rewrite !calls_of_app, !G by reflexivity. split; reflexivity.
    + exists queries, [url], [], []. simpl.
      repeat split; simpl; try lia. now left.
  - split.
    + now rewrite calls_of_app, G.
    + exists queries, [url], [], []. simpl.
      repeat split; simpl; try lia. now left.
  - split.
    + destruct R as [(e & ->) | (s & a & ->)].
      * cbn [app]. now rewrite calls_of_app, !calls_of_cons, G, Wt.
      * cbn [app].
        rewrite !calls_of_app, !calls_of_cons, !G, !Wt by reflexivity.
        split; reflexivity.
    + exists queries, [url], [Feed], points. simpl.
      repeat split; simpl; try lia. now right.
Qed.

(** X15. No start in the request (no name, and a latitude or a longitude
    missing or empty): the answer is the 400 error, and no collaborator is
    called, not even the geocoder for the destination. *)
Theorem view_start_not_provided (args : request_args)
    (S : given (arg_start args) = false)
    (C : given (arg_start_lat args) && given (arg_start_lon args) = false) :
  view args = (Ok (ErrorAnswer "Start location not provided" 400), []).
Proof.
  unfold run_view, analyze_route_view, bind, try_except, resolve_places.
  now rewrite truthy_get_or_empty, S, C.
Qed.

(** X16. A start given by name. The name is geocoded first and the coordinates
    of the request are never read. A geocoder that raises gives the 500
    answer with the exception's text; a start that is not found gives 404
    and the destination is not looked up; a destination that is not found
    gives 404 and no route is requested. Otherwise the view goes on with
    the longitude and latitude of both places and their addresses. *)
Theorem view_named_start (args : request_args)
    (S : given (arg_start args) = true) :
  let s := get_or_empty (arg_start args) in
  let e := get_or_empty (arg_end args) in
  view args
  = match geocoder s with
    | Raise x =>
        (Ok (ErrorAnswer ("Geocoding error: " ++ exn_message x)%string 500),
         [Geocode s])
    | Ok None =>
        (Ok (ErrorAnswer "Could not find start location" 404), [Geocode s])
    | Ok (Some ls) =>
        match geocoder e with
        | Raise x =>
            (Ok (ErrorAnswer ("Geocoding error: " ++ exn_message x)%string 500),
             [Geocode s; Geocode e])
        | Ok None =>
            (Ok (ErrorAnswer "Could not find destination" 404),
             [Geocode s; Geocode e])
        | Ok (Some le) =>
            route_and_report lower libm date_today OPENWEATHERMAP_API_KEY owm
              gdacs_get osrm float_text
              ((longitude ls, latitude ls), address ls,
               (longitude le, latitude le), address le)
              [Geocode s; Geocode e]
        end
    end /\
  forall lat lon,
    view (mkArgs (arg_start args) (arg_end args) lat lon) = view args.
Proof.
  assert (E : forall a, given (arg_start a) = true ->
              view a
              = match geocoder (get_or_empty (arg_start a)) with
                | Raise x =>
                    (Ok (ErrorAnswer
                           ("Geocoding error: " ++ exn_message x)%string 500),
                     [Geocode (get_or_empty (arg_start a))])
                | Ok None =>
                    (Ok (ErrorAnswer "Could not find start location" 404),
                     [Geocode (get_or_empty (arg_start a))])
                | Ok (Some ls) =>
                    match geocoder (get_or_empty (arg_end a)) with
                    | Raise x =>
                        (Ok (ErrorAnswer
                               ("Geocoding error: " ++ exn_message x)%string 500),
                         [Geocode (get_or_empty (arg_start a));
                          Geocode (get_or_empty (arg_end a))])
                    | Ok None =>
                        (Ok (ErrorAnswer "Could not find destination" 404),
                         [Geocode (get_or_empty (arg_start a));
                          Geocode (get_or_empty (arg_end a))])
                    | Ok (Some le) =>
                        route_and_report lower libm date_today
                          OPENWEATHERMAP_API_KEY owm gdacs_get osrm float_text
                          ((longitude ls, latitude ls), address ls,
                           (longitude le, latitude le), address le)
                          [Geocode (get_or_empty (arg_start a));
                           Geocode (get_or_empty (arg_end a))]
                    end
                end).
  { intros a Sa.
    unfold run_view, analyze_route_view, bind, try_except, resolve_places,
      resolve_end, geocode, bind, ret.
    rewrite truthy_get_or_empty, Sa. simpl app.
    destruct (geocoder (get_or_empty (arg_start a))) as [[ls|]|x]; try reflexivity.
    now destruct (geocoder (get_or_empty (arg_end a))) as [[le|]|x]. }
  split; [exact (E args S)|].
  intros lat lon. now rewrite !E.
Qed.

(** X17. A start given by coordinates (no name, both coordinates non-empty):
    the longitude is parsed first, then the latitude; text that [float]
    refuses gives the 500 answer and no collaborator is called; then the
    destination is geocoded, and the view goes on from the parsed
    longitude and latitude under the name "Your Current Location". *)
Theorem view_coordinate_start (args : request_args)
    (S : given (arg_start args) = false)
    (Clat : given (arg_start_lat args) = true)
    (Clon : given (arg_start_lon args) = true) :
  let e := get_or_empty (arg_end args) in
  view args
  = match py_float (get_or_empty (arg_start_lon args)) with
    | Raise x =>
        (Ok (ErrorAnswer ("Geocoding error: " ++ exn_message x)%string 500), [])
    | Ok lon =>
        match py_float (get_or_empty (arg_start_lat args)) with
        | Raise x =>
            (Ok (ErrorAnswer ("Geocoding error: " ++ exn_message x)%string 500),
             [])
        | Ok lat =>
            match geocoder e with
            | Raise x =>
                (Ok (ErrorAnswer
                       ("Geocoding error: " ++ exn_message x)%string 500),
                 [Geocode e])
            | Ok None =>
                (Ok (ErrorAnswer "Could not find destination" 404), [Geocode e])
            | Ok (Some le) =>
                route_and_report lower libm date_today OPENWEATHERMAP_API_KEY
                  owm gdacs_get osrm float_text
                  ((lon, lat), "Your Current Location",
                   (longitude le, latitude le), address le)
                  [Geocode e]
            end
        end
    end.
Proof.
  intros e. subst e.
  unfold run_view, analyze_route_view, bind, try_except, resolve_places,
    resolve_end, geocode, bind, lift, ret.
  rewrite truthy_get_or_empty, S, Clat, Clon. simpl andb. cbv iota.
  destruct (py_float (get_or_empty (arg_start_lon args))) as [lon|x];
    [|reflexivity].
  destruct (py_float (get_or_empty (arg_start_lat args))) as [lat|x];
    [|reflexivity].
  now destruct (geocoder (get_or_empty (arg_end args))) as [[le|]|x].
Qed.

(** X18. Once the places are known, a routing service that gives no route is
    answered with an error, after the one routing request and with no
    request to the feed or the weather: 500 when the request fails, 404
    when the document has no route. The URL carries the longitude before
    the latitude, the start before the end. *)
Theorem view_routing_errors (start_coords end_coords : float * float)
    (start_name end_name : string) (log : list call) (a : answer)
    (E : routing_error (osrm (osrm_url float_text start_coords end_coords)) a) :
  route_and_report lower libm date_today OPENWEATHERMAP_API_KEY owm gdacs_get
    osrm float_text (start_coords, start_name, end_coords, end_name) log
  = (Ok a, log ++ [Route (osrm_url float_text start_coords end_coords)]) /\
  osrm_url float_text start_coords end_coords
  = ("http://router.project-osrm.org/route/v1/driving/"
     ++ float_text (fst start_coords) ++ "," ++ float_text (snd start_coords)
     ++ ";" ++ float_text (fst end_coords) ++ "," ++ float_text (snd end_coords)
     ++ "?overview=full&geometries=geojson")%string.
Proof.
  split; [|reflexivity].
  unfold route_and_report. unfold bind at 1. rewrite routing_stage.
  set (url := osrm_url float_text start_coords end_coords) in *.
  destruct E as [r [e | status body R | status e] | status found S F].
  - reflexivity.
  - unfold raise_for_status. simpl.
    replace ((400 <=? status)%Z && (status <? 600)%Z) with true; [reflexivity|].
    symmetry. apply andb_true_iff. split; [apply Z.leb_le | apply Z.ltb_lt]; lia.
  - now destruct (raise_for_status _) as [[]|e'].
  - assert (R : raise_for_status
                  (mkResponse status (Ok (mkOsrmData found))) = Ok tt).
    { unfold raise_for_status. simpl.
      destruct ((400 <=? status)%Z && (status <? 600)%Z) eqn:B; [|reflexivity].
      apply andb_true_iff in B as [B1 B2].
      apply Z.leb_le in B1. apply Z.ltb_lt in B2. lia. }
    rewrite R. simpl. now destruct F as [-> | ->].
Qed.

Lemma status_accepted {A} (status : Z) (body : result A) :
  ~ (400 <= status < 600)%Z -> raise_for_status (mkResponse status body) = Ok tt.
Proof.
  intros S. unfold raise_for_status. simpl.
  destruct ((400 <=? status)%Z && (status <? 600)%Z) eqn:B; [|reflexivity].
  apply andb_true_iff in B as [B1 B2].
  apply Z.leb_le in B1. apply Z.ltb_lt in B2. lia.
Qed.

(** X19. A route the view cannot read is not answered: the exception leaves the
    view. A first route with no ['geometry'] or no ['coordinates'] raises
    [KeyError], and a position with fewer than two numbers raises
    [IndexError], both before the feed is requested; a route with no
    position at all raises [IndexError] from the weather sampler when a key
    is configured, after the feed was requested. *)
Theorem view_unreadable_route_raises (start_coords end_coords : float * float)
    (start_name end_name : string) (log : list call) (status : Z)
    (first_route : osrm_route) (more : list osrm_route)
    (S : ~ (400 <= status < 600)%Z)
    (R : osrm (osrm_url float_text start_coords end_coords)
         = Ok (mkResponse status
                 (Ok (mkOsrmData (Some (first_route :: more)))))) :
  let run :=
    route_and_report lower libm date_today OPENWEATHERMAP_API_KEY owm gdacs_get
      osrm float_text (start_coords, start_name, end_coords, end_name) log in
  let url := osrm_url float_text start_coords end_coords in
  (coordinates first_route = None ->
   run = (Raise KeyError, log ++ [Route url])) /\
  (forall positions,
     coordinates first_route = Some positions ->
     forallb has_lon_lat positions = false ->
     run = (Raise IndexError, log ++ [Route url])) /\
  (coordinates first_route = Some [] ->
   key_configured OPENWEATHERMAP_API_KEY = true ->
   run = (Raise IndexError, log ++ [Route url; Feed])).
Proof.
  intros run url.
  assert (E : run
              = match dict_get (coordinates first_route) with
                | Ok positions =>
                    match swap_positions positions with
                    | Ok route_points =>
                        report lower libm date_today OPENWEATHERMAP_API_KEY owm
                          gdacs_get start_name end_name route_points
                          (log ++ [Route url])
                    | Raise e => (Raise e, log ++ [Route url])
                    end
                | Raise e => (Raise e, log ++ [Route url])
                end).
  { subst run url. unfold route_and_report. unfold bind at 1.
    rewrite routing_stage, R, (status_accepted _ _ S). cbn [decoded routes].
    unfold bind, lift.
    destruct (dict_get (coordinates first_route)) as [positions|e]; [|reflexivity].
    now destruct (swap_positions positions). }
  rewrite E. clear E. split; [|split].
  - intros ->. reflexivity.
  - intros positions -> F. cbn [dict_get].
    now rewrite (swap_positions_eq positions), F.
  - intros -> K. cbn [dict_get swap_positions].
    unfold report. rewrite analyze_route_eq.
    destruct (fetch_gdacs_subsequence libm gdacs_get []) as (g & -> & _).
    rewrite fetch_weather_alerts_eq, K. simpl. now rewrite <- app_assoc.
Qed.

(** X20. A route the view can read (every position has two numbers, and there
    is at least one): the answer is a route answer. Its route is the
    positions with the latitude first, its end name is the address the
    geocoder gave for the destination, and it is against that address,
    not the text of the request, that the local advisories are matched;
    its hazards are the local ones, then those of the feed, then those of
    the weather; the feed is requested once after the route, then the
    weather. *)
Theorem view_route_answer (start_coords end_coords : float * float)
    (start_name end_name : string) (log : list call) (status : Z)
    (positions : list (list float)) (more : list osrm_route)
    (S : ~ (400 <= status < 600)%Z)
    (R : osrm (osrm_url float_text start_coords end_coords)
         = Ok (mkResponse status
                 (Ok (mkOsrmData (Some (mkOsrmRoute (Some positions) :: more))))))
    (W : forallb has_lon_lat positions = true)
    (N : positions <> []) :
  let route_points := map latlon positions in
  exists g w,
    fetch_and_check_gdacs_alerts libm gdacs_get route_points = Ok g /\
    fst (fetch_weather_alerts OPENWEATHERMAP_API_KEY owm route_points) = Ok w /\
    let hs := fetch_local_advisories lower end_name ++ g ++ w in
    route_and_report lower libm date_today OPENWEATHERMAP_API_KEY owm gdacs_get
      osrm float_text (start_coords, start_name, end_coords, end_name) log
    = (Ok (RouteAnswer start_name
             (mkAnalysis end_name route_points hs
                (get_satellite_url lower date_today (primary_details hs)))),
       log ++ Route (osrm_url float_text start_coords end_coords) :: Feed ::
         map Weather
           (snd (fetch_weather_alerts OPENWEATHERMAP_API_KEY owm route_points))).
Proof.
  intros route_points.
  destruct (fetch_gdacs_subsequence libm gdacs_get route_points) as (g & G & _).
  pose proof (fetch_weather_alerts_shape OPENWEATHERMAP_API_KEY owm route_points) as I.
  destruct (fetch_weather_alerts OPENWEATHERMAP_API_KEY owm route_points)
    as [[w|e] asked] eqn:F.
  2:{ destruct I as (_ & _ & Z & _). subst route_points.
      destruct positions; [now elim N | discriminate]. }
  exists g, w. split; [exact G|]. split; [reflexivity|]. cbv zeta.
  unfold route_and_report. unfold bind at 1. rewrite routing_stage.
  rewrite R, (status_accepted _ _ S). cbn [decoded routes coordinates dict_get].
  unfold bind at 1, lift at 1.
  rewrite (swap_positions_eq positions), W.
  unfold bind at 1, lift at 1. fold route_points.
  unfold report. rewrite analyze_route_eq, G, F. simpl.
  now rewrite <- app_assoc.
Qed.

End ViewProperties.

(** ** The hazards of an answer, by source *)

Section HazardsBySource.
Variable lower : string -> string.
Variable libm : math.impl.
Variable date_today : string.
Variable OPENWEATHERMAP_API_KEY : option string.
Variable owm : nat -> point -> result (response weather_data).
Variable gdacs_get : result (response (list item)).

(** X13. Lines 206 to 219, whatever the sources answer. When they return, the
    hazards are at most one advisory of the registry, then records named
    "Near your route", then at most three records whose details start
    with "Weather Alert: "; the end name and the route are the ones given,
    and the imagery URL is one of the two templates. They raise only
    [IndexError], and only on an empty route with a key configured. *)
Theorem analyze_route_hazards_by_source (end_name : string)
    (route_points : list point) :
  match analyze_route lower libm date_today OPENWEATHERMAP_API_KEY owm
          gdacs_get end_name route_points with
  | Ok a =>
      (exists l g w,
         hazards a = l ++ g ++ w /\
         (l = [] \/ exists key advisory,
                      In (key, advisory) MOCK_LOCAL_ADVISORIES /\ l = [advisory]) /\
         Forall (fun h => location_name h = "Near your route") g /\
         (List.length w <= 3)%nat /\
         Forall (fun h => exists d, details h = ("Weather Alert: " ++ d)%string) w) /\
      endName a = end_name /\ route a = route_points /\
      (satelliteUrl a = viirs_url date_today \/
       satelliteUrl a = modis_url date_today)
  | Raise e =>
      e = IndexError /\ route_points = [] /\
      key_configured OPENWEATHERMAP_API_KEY = true
  end.
Proof.
  rewrite analyze_route_eq.
  destruct (fetch_gdacs_subsequence libm gdacs_get route_points)
    as (g & Eg & _).
  pose proof (fetch_gdacs_named _ _ _ _ Eg) as G. rewrite Eg.
  pose proof (fetch_weather_alerts_shape OPENWEATHERMAP_API_KEY owm route_points) as W.
  destruct (fetch_weather_alerts OPENWEATHERMAP_API_KEY owm route_points)
    as [[w|e] asked]; simpl; [|tauto].
  destruct W as (W1 & W2 & W3).
  split; [|split; [reflexivity|split; [reflexivity|]]].
  - exists (fetch_local_advisories lower end_name), g, w.
    split; [reflexivity|]. split; [|split; [exact G|split; [lia|]]].
    + unfold fetch_local_advisories.
      destruct (scan_advisories_cases lower MOCK_LOCAL_ADVISORIES end_name [])
        as [[-> _] | (key & adv & -> & earlier & later & E & _)]; [now left|].
      assert (I : In (key, adv) MOCK_LOCAL_ADVISORIES).
      { rewrite E. apply in_or_app. right. now left. }
      right. exists key, adv. split; [exact I | reflexivity].
    + exact W3.
  - unfold get_satellite_url.
    destruct (mentions_fire lower _); [now left | now right].
Qed.

End HazardsBySource.

(** ** The distance in the other direction *)

Lemma opp_involutive (x : float) : - - x = x.
Proof.
  apply Prim2SF_inj. rewrite !opp_spec.
  destruct (Prim2SF x) as [s|s| |s m e]; simpl; now rewrite ?negb_involutive.
Qed.

(** The sign of a rounded number is the sign given to the rounding. *)
Lemma binary_round_aux_opp (prec emax : Z) (s : bool) (m e : Z)
    (l : SpecFloat.location) :
  SpecFloat.binary_round_aux prec emax (negb s) m e l
  = SpecFloat.SFopp (SpecFloat.binary_round_aux prec emax s m e l).
Proof.
  unfold SpecFloat.binary_round_aux.
  destruct (SpecFloat.shr_fexp prec emax m e l) as [mrs' e'].
  destruct (SpecFloat.shr_fexp prec emax _ e' SpecFloat.loc_Exact) as [mrs'' e''].
  destruct (SpecFloat.shr_m mrs''); [reflexivity| |reflexivity].
  now destruct (e'' <=? emax - prec)%Z.
Qed.

Lemma binary_round_opp (prec emax : Z) (s : bool) (m : positive) (e : Z) :
  SpecFloat.binary_round prec emax (negb s) m e
  = SpecFloat.SFopp (SpecFloat.binary_round prec emax s m e).
Proof.
  unfold SpecFloat.binary_round.
  destruct (SpecFloat.shl_align m e _) as [mz ez].
  apply binary_round_aux_opp.
Qed.

Lemma mul_opp_l (x y : float) : (- x) * y = - (x * y).
Proof.
  apply Prim2SF_inj. rewrite opp_spec, !mul_spec, opp_spec.
  unfold SF64mul.
  destruct (Prim2SF x) as [sx|sx| |sx mx ex], (Prim2SF y) as [sy|sy| |sy my ey];
    simpl; try reflexivity; try (now destruct sx, sy).
  rewrite <- binary_round_aux_opp. now destruct sx, sy.
Qed.

Lemma mul_comm (x y : float) : x * y = y * x.
Proof.
  apply Prim2SF_inj. rewrite !mul_spec. unfold SF64mul.
  destruct (Prim2SF x) as [sx|sx| |sx mx ex], (Prim2SF y) as [sy|sy| |sy my ey];
    simpl; try reflexivity; try (now destruct sx, sy).
  now rewrite xorb_comm, Pos.mul_comm, Z.add_comm.
Qed.

Lemma mul_opp_r (x y : float) : x * (- y) = - (x * y).
Proof. now rewrite (mul_comm x (- y)), mul_opp_l, (mul_comm y x). Qed.

Lemma div_opp_l (x y : float) : (- x) / y = - (x / y).
Proof.
  apply Prim2SF_inj. rewrite opp_spec, !div_spec, opp_spec.
  unfold SF64div.
  destruct (Prim2SF x) as [sx|sx| |sx mx ex], (Prim2SF y) as [sy|sy| |sy my ey];
    simpl; try reflexivity; try (now destruct sx, sy).
  destruct (SpecFloat.SFdiv_core_binary _ _ _ _ _ _) as [[mz ez] lz].
  rewrite <- binary_round_aux_opp. now destruct sx, sy.
Qed.

(** [y - x] is the opposite of [x - y], except that both are [+0] when
    the two numbers cancel. *)
Lemma SFsub_swap (prec emax : Z) (X Y : SpecFloat.spec_float) :
  SpecFloat.SFsub prec emax Y X = SpecFloat.SFopp (SpecFloat.SFsub prec emax X Y) \/
  (SpecFloat.SFsub prec emax X Y = SpecFloat.S754_zero false /\
   SpecFloat.SFsub prec emax Y X = SpecFloat.S754_zero false).
Proof.
  destruct X as [sx|sx| |sx mx ex], Y as [sy|sy| |sy my ey];
    try (destruct sx, sy; simpl; now auto);
    try (destruct sx; simpl; now auto);
    try (destruct sy; simpl; now auto);
    try (simpl; now auto).
  unfold SpecFloat.SFsub. cbv zeta. rewrite (Z.min_comm ey ex).
  set (ez := Z.min ex ey).
  set (A := SpecFloat.cond_Zopp sx (Z.pos (fst (SpecFloat.shl_align mx ex ez)))).
  set (B := SpecFloat.cond_Zopp sy (Z.pos (fst (SpecFloat.shl_align my ey ez)))).
  replace (B - A)%Z with (- (A - B))%Z by lia.
  destruct (A - B)%Z as [|p|p]; simpl.
  - now right.
  - left. apply (binary_round_opp prec emax false).
  - left. now rewrite <- (binary_round_opp prec emax true).
Qed.

Lemma sub_swap (x y : float) :
  y - x = - (x - y) \/ (x - y = 0 /\ y - x = 0).
Proof.
  destruct (SFsub_swap prec emax (Prim2SF x) (Prim2SF y)) as [E | [E1 E2]].
  - left. apply Prim2SF_inj. now rewrite opp_spec, !sub_spec.
  - right. split; apply Prim2SF_inj; now rewrite sub_spec.
Qed.

Lemma is_finite_opp (x : float) : is_finite (- x) = is_finite x.
Proof.
  unfold is_finite, is_nan, is_infinity.
  rewrite !eqb_spec, !abs_spec, !opp_spec.
  destruct (Prim2SF x) as [s|s| |s m e]; try destruct s; try reflexivity;
    unfold SpecFloat.SFeqb, SpecFloat.SFcompare; simpl;
    now rewrite Z.compare_refl, Pos.compare_cont_refl.
Qed.

(** A float is negative, positive, or neither (a zero or a NaN), and its
    opposite the other way round. *)
Lemma sign_cases (x : float) :
  ((x <? 0) = true /\ (0 <? x) = false /\ (- x <? 0) = false /\ (0 <? - x) = true) \/
  ((x <? 0) = false /\ (0 <? x) = true /\ (- x <? 0) = true /\ (0 <? - x) = false) \/
  ((x <? 0) = false /\ (0 <? x) = false /\ (- x <? 0) = false /\ (0 <? - x) = false).
Proof.
  rewrite !ltb_spec, !opp_spec.
  change (Prim2SF 0) with (SpecFloat.S754_zero false).
  destruct (Prim2SF x) as [s|s| |s m e]; try destruct s; cbv; tauto.
Qed.

Section Symmetry.
Variable libm : math.impl.
Hypothesis O : sign_symmetric libm.

Lemma half_chord_opp (d : float) : half_chord libm (- d) = half_chord libm d.
Proof.
  destruct O as (O1 & O2 & O3). unfold half_chord. rewrite O1.
  destruct (math.radians libm d) as [r|e]; simpl; [|reflexivity].
  rewrite div_opp_l, O2.
  destruct (math.sin libm (r / 2)) as [s|e]; simpl; [apply O3 | reflexivity].
Qed.

Lemma half_chord_swap (x y : float) :
  half_chord libm (y - x) = half_chord libm (x - y).
Proof.
  destruct (sub_swap x y) as [-> | [-> ->]];
    [apply half_chord_opp | reflexivity].
Qed.

(** [a] is computed exactly when its four terms are. *)
Lemma haversine_a_terms (lat1 lon1 lat2 lon2 a : float) :
  haversine_a libm lat1 lon1 lat2 lon2 = Ok a <->
  exists q1 c1 c2 q2,
    half_chord libm (lat2 - lat1) = Ok q1 /\
    cos_degrees libm lat1 = Ok c1 /\ cos_degrees libm lat2 = Ok c2 /\
    half_chord libm (lon2 - lon1) = Ok q2 /\
    a = q1 + c1 * c2 * q2.
Proof.
  unfold haversine_a, half_chord, cos_degrees.
  destruct (math.radians libm (lat2 - lat1)) as [dlat|e]; simpl;
    [|split; [discriminate | now intros (q1 & c1 & c2 & q2 & H & _)]].
  destruct (math.radians libm (lon2 - lon1)) as [dlon|e]; simpl;
    [|split; [discriminate | now intros (q1 & c1 & c2 & q2 & _ & _ & _ & H & _)]].
  destruct (math.sin libm (dlat / 2)) as [s1|e]; simpl;
    [|split; [discriminate | now intros (q1 & c1 & c2 & q2 & H & _)]].
  destruct (math.pow libm s1 2) as [q1|e]; simpl;
    [|split; [discriminate | now intros (q1 & c1 & c2 & q2 & H & _)]].
  destruct (math.radians libm lat1) as [r1|e]; simpl;
    [|split; [discriminate | now intros (q1' & c1 & c2 & q2 & _ & H & _)]].
  destruct (math.cos libm r1) as [c1|e]; simpl;
    [|split; [discriminate | now intros (q1' & c1 & c2 & q2 & _ & H & _)]].
  destruct (math.radians libm lat2) as [r2|e]; simpl;
    [|split; [discriminate | now intros (q1' & c1' & c2 & q2 & _ & _ & H & _)]].
  destruct (math.cos libm r2) as [c2|e]; simpl;
    [|split; [discriminate | now intros (q1' & c1' & c2 & q2 & _ & _ & H & _)]].
  destruct (math.sin libm (dlon / 2)) as [s2|e]; simpl;
    [|split; [discriminate | now intros (q1' & c1' & c2' & q2 & _ & _ & _ & H & _)]].
  destruct (math.pow libm s2 2) as [q2|e]; simpl;
    [|split; [discriminate | now intros (q1' & c1' & c2' & q2 & _ & _ & _ & H & _)]].
  split.
  - intros H. injection H as <-. now exists q1, c1, c2, q2.
  - intros (q1' & c1' & c2' & q2' & H1 & H2 & H3 & H4 & ->). congruence.
Qed.

Lemma haversine_a_swap (lat1 lon1 lat2 lon2 a : float) :
  haversine_a libm lat1 lon1 lat2 lon2 = Ok a ->
  haversine_a libm lat2 lon2 lat1 lon1 = Ok a.
Proof.
  intros H. apply haversine_a_terms in H as (q1 & c1 & c2 & q2 & H1 & H2 & H3 & H4 & ->).
  apply haversine_a_terms. exists q1, c2, c1, q2.
  rewrite half_chord_swap, H1, half_chord_swap, H4, (mul_comm c2 c1). auto.
Qed.

(** X23. With a math module that treats the two signs alike, the distance from
    the second point to the first is computed exactly when the distance
    from the first to the second is, and it is the same float, bit for
    bit; so one point is within 50 km of the other exactly when the other
    is within 50 km of it. *)
Theorem haversine_symmetric (lat1 lon1 lat2 lon2 : float) :
  (forall d, haversine libm lat1 lon1 lat2 lon2 = Ok d <->
             haversine libm lat2 lon2 lat1 lon1 = Ok d) /\
  (strictly_within_50km libm (lat1, lon1) lat2 lon2 <->
   strictly_within_50km libm (lat2, lon2) lat1 lon1).
Proof.
  assert (S : forall la1 lo1 la2 lo2 d,
             haversine libm la1 lo1 la2 lo2 = Ok d ->
             haversine libm la2 lo2 la1 lo1 = Ok d).
  { intros la1 lo1 la2 lo2 d. unfold haversine. cbv zeta.
    destruct (haversine_a libm la1 lo1 la2 lo2) as [a|e] eqn:A; [|discriminate].
    now rewrite (haversine_a_swap _ _ _ _ _ A). }
  split.
  - intros d. split; apply S.
  - unfold strictly_within_50km. simpl.
    split; intros (d & H & W); exists d; (split; [now apply S | exact W]).
Qed.

End Symmetry.

(** The module with the mirrored sine treats the two signs alike. *)
Lemma mirrored_sign_symmetric : sign_symmetric mirrored.libm.
Proof.
  split; [|split]; intros x; simpl.
  - unfold approx.radians. simpl. now rewrite mul_opp_l.
  - unfold mirrored.sin, mirrored.odd_extension.
    destruct (sign_cases x) as [H | [H | H]]; destruct H as (A & B & C & D);
      rewrite ?A, ?B, ?C, ?D.
    + destruct (approx.sin (- x)) as [y|e]; simpl; [|reflexivity].
      now rewrite opp_involutive.
    + now rewrite opp_involutive.
    + reflexivity.
  - unfold approx.pow. simpl.
    now rewrite is_finite_opp, !mul_opp_r, mul_opp_l, opp_involutive.
Qed.

(** ** A local advisory and the imagery *)

(** No advisory of the registry names a fire. *)
Lemma registry_never_names_fire :
  Forall (fun entry =>
            mentions_fire PyStr.ascii_lower (Some (details (snd entry))) = false)
         MOCK_LOCAL_ADVISORIES.
Proof. repeat constructor. Qed.

Section AdvisoryFirst.
Variable lower : string -> string.
Variable libm : math.impl.
Variable date_today : string.
Variable OPENWEATHERMAP_API_KEY : option string.
Variable owm : nat -> point -> result (response weather_data).
Variable gdacs_get : result (response (list item)).

(** X21. When the destination matches a local advisory, that advisory is the
    first hazard and it alone selects the imagery: the answer carries the
    true-colour layer whatever the feed and the weather report, a wildfire
    alert next to the route included. [lower] is any lower-casing that
    agrees with the ASCII one on the details of the registry, which are
    ASCII text. *)
Theorem local_advisory_decides_imagery (end_name : string)
    (route_points : list point)
    (A : Forall (fun entry => lower (details (snd entry))
                              = PyStr.ascii_lower (details (snd entry)))
                MOCK_LOCAL_ADVISORIES)
    (L : fetch_local_advisories lower end_name <> [])
    (N : route_points <> []) :
  exists a key advisory,
    analyze_route lower libm date_today OPENWEATHERMAP_API_KEY owm gdacs_get
      end_name route_points = Ok a /\
    In (key, advisory) MOCK_LOCAL_ADVISORIES /\
    hd_error (hazards a) = Some advisory /\
    satelliteUrl a = modis_url date_today.
Proof.
  rewrite analyze_route_eq.
  destruct (fetch_gdacs_subsequence libm gdacs_get route_points) as (g & -> & _).
  pose proof (fetch_weather_alerts_shape OPENWEATHERMAP_API_KEY owm route_points) as W.
  destruct (fetch_weather_alerts OPENWEATHERMAP_API_KEY owm route_points)
    as [[w|e] asked]; [|now destruct W as (_ & _ & Z & _)].
  unfold fetch_local_advisories in *.
  destruct (scan_advisories_cases lower MOCK_LOCAL_ADVISORIES end_name [])
    as [[E _] | (key & adv & E & earlier & later & M & _)];
    [now elim L|].
  assert (I : In (key, adv) MOCK_LOCAL_ADVISORIES).
  { rewrite M. apply in_or_app. right. now left. }
  rewrite E. eexists. exists key, adv.
  split; [reflexivity|]. split; [exact I|]. split; [reflexivity|].
  cbn [rbind fst app satelliteUrl primary_details].
  unfold get_satellite_url.
  replace (mentions_fire lower (Some (details adv))) with false; [reflexivity|].
  pose proof (proj1 (Forall_forall _ _) A _ I) as A1.
  pose proof (proj1 (Forall_forall _ _) registry_never_names_fire _ I) as F1.
  cbn [snd] in A1, F1. unfold mentions_fire in *. now rewrite A1.
Qed.

End AdvisoryFirst.

(** ** The route as a set of points *)

Lemma subsequence_flat_map {A B} (f g : A -> list B) (l : list A) :
  (forall x, subsequence (f x) (g x)) ->
  subsequence (flat_map f l) (flat_map g l).
Proof.
  intros H. induction l as [|x l IH]; simpl; [constructor|].
  now apply subsequence_app.
Qed.

Section RouteAsSet.
Variable libm : math.impl.

(** X22. With every distance computed, only the set of route points counts, not
    their order or their repetitions: a route whose points all belong to a
    second route gives a sub-list of what the second gives, and two routes
    with the same points give the same records. The first-match short cut
    of the scan is not observable in the result. *)
Theorem gdacs_route_as_set (route_points longer : list point)
    (entries : list feed_entry)
    (D : distances_defined libm longer entries)
    (I : incl route_points longer) :
  exists hs hs',
    fetch_and_check_gdacs_alerts libm (delivered entries) route_points = Ok hs /\
    fetch_and_check_gdacs_alerts libm (delivered entries) longer = Ok hs' /\
    subsequence hs hs' /\
    (incl longer route_points -> hs = hs').
Proof.
  assert (D' : distances_defined libm route_points entries).
  { intros e lat lon rp He Hp Hr. apply (D e); auto. }
  assert (R : forall route, distances_defined libm route entries ->
              fetch_and_check_gdacs_alerts libm (delivered entries) route
              = Ok (correlateDisasterAlerts libm route entries)).
  { intros route Dr. rewrite fetch_gdacs_eq.
    unfold gdacs_try, delivered, bind, lift. simpl.
    now rewrite for_each_entries. }
  assert (Up : forall lat lon r1 r2, incl r1 r2 ->
               existsb (near libm lat lon) r1 = true ->
               existsb (near libm lat lon) r2 = true).
  { intros lat lon r1 r2 H E. apply existsb_exists in E as (rp & Hr & Hn).
    apply existsb_exists. exists rp. split; [now apply H | exact Hn]. }
  exists (correlateDisasterAlerts libm route_points entries),
         (correlateDisasterAlerts libm longer entries).
  split; [now apply R|]. split; [now apply R|]. split.
  - apply subsequence_flat_map. intros e. unfold correlate_entry.
    destruct (entry_point e) as [pt|]; [|constructor].
    destruct (existsb (near libm (fst pt) (snd pt)) route_points) eqn:E;
      [|constructor].
    rewrite (Up _ _ _ _ I E). apply subsequence_refl.
  - intros J. unfold correlateDisasterAlerts.
    apply flat_map_ext. intros e. unfold correlate_entry.
    destruct (entry_point e) as [pt|]; [|reflexivity].
    destruct (existsb (near libm (fst pt) (snd pt)) route_points) eqn:E.
    + now rewrite (Up _ _ _ _ I E).
    + destruct (existsb (near libm (fst pt) (snd pt)) longer) eqn:E';
        [|reflexivity].
      rewrite (Up _ _ _ _ J E') in E. discriminate.
Qed.

End RouteAsSet.

(** ** The further properties on concrete requests *)

(** The seven-point route of the sample. *)
Lemma weather_sample_positions_witness :
  snd (fetch_weather_alerts sample.api_key sample.owm sample.route_7)
  = map (route_at sample.route_7) (sampled_indices 7).
Proof.
  assert (K : key_configured sample.api_key = true) by reflexivity.
  assert (N : sample.route_7 <> []) by discriminate.
  exact (proj1 (weather_sample_positions sample.api_key sample.owm
                  sample.route_7 K N)).
Defined.

(** The two-point sample route, with a provider that always reports rain. *)
Lemma weather_short_route_repeats_witness :
  List.length
    (match fst (fetch_weather_alerts sample.api_key
                  (fun _ _ => Ok (mkResponse 200
                     (Ok (weather_result 501 "moderate rain" [] None))))
                  sample.route_points)
     with Ok hs => hs | Raise _ => [] end) = 3%nat.
Proof.
  assert (K : key_configured sample.api_key = true) by reflexivity.
  assert (N : sample.route_points <> []) by discriminate.
  assert (S : (List.length sample.route_points <= 2)%nat) by (simpl; lia).
  rewrite (weather_short_route_repeats sample.api_key sample.route_points
             (fun _ => Ok (mkResponse 200
                             (Ok (weather_result 501 "moderate rain" [] None))))
             K N S).
  reflexivity.
Defined.

(** A latitude is missing: nothing is called. *)
Lemma view_start_not_provided_witness :
  sample_request.view sample_request.no_start
  = (Ok (ErrorAnswer "Start location not provided" 400), []).
Proof.
  apply view_start_not_provided; reflexivity.
Defined.

(** A start by name: coordinates added to the request change nothing. *)
Lemma view_named_start_witness :
  sample_request.view
    (mkArgs (Some "Chandigarh") (Some "Shimla") (Some "north") (Some "east"))
  = sample_request.view sample_request.by_name.
Proof.
  exact (proj2 (view_named_start PyStr.ascii_lower approx.libm
                  sample.date_today sample.api_key sample.owm
                  (delivered sample.entries) sample_request.geocoder
                  sample_request.osrm sample_request.py_float
                  sample_request.exn_message sample_request.float_text
                  sample_request.by_name eq_refl)
               (Some "north") (Some "east")).
Defined.

(** A start by coordinates whose latitude is not a number. *)
Lemma view_coordinate_start_witness :
  sample_request.view
    (mkArgs None (Some "Shimla") (Some "north") (Some "76.7794"))
  = (Ok (ErrorAnswer "Geocoding error: could not convert string to float" 500),
     []).
Proof.
  unfold sample_request.view.
  rewrite view_coordinate_start by reflexivity. reflexivity.
Defined.

(** A routing service that cannot be reached. *)
Lemma view_routing_errors_witness :
  route_and_report PyStr.ascii_lower approx.libm sample.date_today
    sample.api_key sample.owm (delivered sample.entries)
    (fun _ => Raise RequestException) sample_request.float_text
    ((76.7794, 30.7333), "Chandigarh, India", (77.1734, 31.1048), "Shimla")
    []
  = (Ok (ErrorAnswer "Could not fetch route from routing service." 500),
     [Route "http://router.project-osrm.org/route/v1/driving/76.7794,30.7333;77.1734,31.1048?overview=full&geometries=geojson"]).
Proof.
  apply (proj1 (view_routing_errors PyStr.ascii_lower approx.libm
                  sample.date_today sample.api_key sample.owm
                  (delivered sample.entries) (fun _ => Raise RequestException)
                  sample_request.float_text (76.7794, 30.7333) (77.1734, 31.1048)
                  "Chandigarh, India" "Shimla" [] _
                  (routing_failed _ (network_error RequestException)))).
Defined.

(** A route with no geometry. *)
Lemma view_unreadable_route_raises_witness :
  route_and_report PyStr.ascii_lower approx.libm sample.date_today
    sample.api_key sample.owm (delivered sample.entries)
    (fun _ => Ok (mkResponse 200 (Ok (mkOsrmData (Some [mkOsrmRoute None])))))
    sample_request.float_text
    ((76.7794, 30.7333), "Chandigarh, India", (77.1734, 31.1048), "Shimla")
    []
  = (Raise KeyError,
     [Route "http://router.project-osrm.org/route/v1/driving/76.7794,30.7333;77.1734,31.1048?overview=full&geometries=geojson"]).
Proof.
  apply (proj1 (view_unreadable_route_raises PyStr.ascii_lower approx.libm
                  sample.date_today sample.api_key sample.owm
                  (delivered sample.entries)
                  (fun _ => Ok (mkResponse 200
                                  (Ok (mkOsrmData (Some [mkOsrmRoute None])))))
                  sample_request.float_text (76.7794, 30.7333) (77.1734, 31.1048)
                  "Chandigarh, India" "Shimla" [] 200 (mkOsrmRoute None) []
                  ltac:(lia) eq_refl)).
  reflexivity.
Defined.

(** The sample route: three positions, one of them with an elevation. *)
Lemma view_route_answer_witness :
  exists a calls,
    route_and_report PyStr.ascii_lower approx.libm sample.date_today
      sample.api_key sample.owm (delivered sample.entries)
      sample_request.osrm sample_request.float_text
      ((76.7794, 30.7333), "Chandigarh, India", (77.1734, 31.1048),
       "Shimla, Shimla District, Himachal Pradesh, India")
      []
    = (Ok (RouteAnswer "Chandigarh, India" a), calls) /\
    route a = map latlon sample_request.positions.
Proof.
  destruct (view_route_answer PyStr.ascii_lower approx.libm
              sample.date_today sample.api_key sample.owm
              (delivered sample.entries) sample_request.osrm
              sample_request.float_text (76.7794, 30.7333) (77.1734, 31.1048)
              "Chandigarh, India"
              "Shimla, Shimla District, Himachal Pradesh, India" [] 200
              sample_request.positions [] ltac:(lia) eq_refl eq_refl
              ltac:(discriminate))
    as (g & w & _ & _ & E).
  eexists _, _. split; [exact E | reflexivity].
Defined.

(** A destination in Shimla with a wildfire alert on the route: the
    imagery stays the true-colour layer. *)
Lemma local_advisory_decides_imagery_witness :
  exists a key advisory,
    analyze_route PyStr.ascii_lower approx.libm sample.date_today sample.api_key
      sample.owm
      (delivered [mkEntry "Red wildfire alert" (Some (31.11, 77.11))])
      sample.end_name sample.route_points = Ok a /\
    In (key, advisory) MOCK_LOCAL_ADVISORIES /\
    hd_error (hazards a) = Some advisory /\
    satelliteUrl a = modis_url sample.date_today.
Proof.
  apply local_advisory_decides_imagery.
  - repeat constructor.
  - vm_compute. discriminate.
  - discriminate.
Defined.

(** The first point of the sample route against the whole route. *)
Lemma gdacs_route_as_set_witness :
  exists hs hs',
    fetch_and_check_gdacs_alerts approx.libm (delivered sample.entries)
      [(31.10, 77.10)%float] = Ok hs /\
    fetch_and_check_gdacs_alerts approx.libm (delivered sample.entries)
      sample.route_points = Ok hs' /\
    subsequence hs hs' /\
    (incl sample.route_points [(31.10, 77.10)%float] -> hs = hs').
Proof.
  apply gdacs_route_as_set.
  - exact sample_distances_defined.
  - intros rp [<-|[]]. left. reflexivity.
Defined.

(** Shimla and Chandigarh, in the two directions. *)
Lemma haversine_symmetric_witness :
  sign_symmetric mirrored.libm /\
  exists d,
    haversine mirrored.libm 31.1048 77.1734 30.7333 76.7794 = Ok d /\
    haversine mirrored.libm 30.7333 76.7794 31.1048 77.1734 = Ok d.
Proof.
  split; [exact mirrored_sign_symmetric|].
  eexists. split; [vm_compute; reflexivity|].
  apply (proj1 (haversine_symmetric mirrored.libm mirrored_sign_symmetric
                  31.1048 77.1734 30.7333 76.7794)).
  vm_compute. reflexivity.
Defined.
